(** * KiroService: a proxy to the plugin API, embedded in Rocq

    Source: [src/app/services/kiro_service.py].

    The service owns no business logic.  Every public method resolves the
    caller's plugin API key, builds one HTTP request (or one streaming
    request) for a fixed path of the plugin API and relays the answer.

    The embedding is shallow.  The collaborators the source imports but does
    not define (the key repository, [decrypt_api_key], the settings and the
    [httpx] client) are fields of a [World]; every call on them is recorded in
    an event log, so that statements such as "no outbound call was made" or
    "the connection was closed" are statements about that log. *)

From Stdlib Require Import ZArith.
From stdpp Require Import base strings list gmap.

Local Open Scope Z_scope.
Set Warnings "-register-all".

(** ** Data *)

(** Python [bytes]. *)
Abbreviation bytes := (list Byte.byte).

(** A JSON document, the [Dict[str, Any]] payloads of the source. *)
Inductive Json : Type :=
| JNull
| JBool (b : bool)
| JInt (n : Z)
| JStr (s : string)
| JList (items : list Json)
| JDict (fields : list (string * Json)).

(** A row of the plugin API key table, as the repository returns it.  Only
    the two attributes the service reads are kept. *)
Record PluginAPIKey : Type := {
  api_key : string;
  is_active : bool
}.

(** The part of the application settings the service reads. *)
Record Settings : Type := {
  plugin_api_base_url : string
}.

(** [PluginAPIKeyRepository(db)]: the repository remembers its session. *)
Record PluginAPIKeyRepository : Type := {
  repo_db : Z
}.

(** The attributes of a [KiroService] object. *)
Record KiroService : Type := {
  db : Z;
  settings : Settings;
  plugin_api_key_repo : PluginAPIKeyRepository;
  base_url : string
}.

(** The keyword arguments of [client.request] and [client.stream].  The
    timeout is in seconds. *)
Record Request : Type := {
  method : string;
  url : string;
  json : option Json;
  params : option (gmap string Json);
  headers : gmap string string;
  timeout : Z
}.

(** A fully read [httpx.Response]: [json_doc] is what [response.json()]
    yields, [None] when the body is not a JSON text. *)
Record Response : Type := {
  status_code : Z;
  content : bytes;
  json_doc : option Json
}.

(** Exceptions.  [HTTPStatusError] carries the response it was raised for:
    its status and, when the body had been read, its body. *)
Inductive Exc : Type :=
| ValueError (msg : string)
| HTTPStatusError (status : Z) (body : option bytes)
| TransportError (detail : string)
| JSONDecodeError
| OtherError (detail : string).

Inductive Result (A : Type) : Type :=
| Ok (a : A)
| Raise (e : Exc).
Arguments Ok {A} a.
Arguments Raise {A} e.

(** A streamed [httpx.Response]: the status line, then the chunks that
    [response.aiter_bytes()] hands out, then either the end of the body
    ([stream_failure = None]) or an exception raised by the transport. *)
Record StreamResponse : Type := {
  stream_status : Z;
  stream_chunks : list bytes;
  stream_failure : option Exc
}.

(** What the service does to the outside, in the order it does it:
    - [EvLookup]: [plugin_api_key_repo.get_by_user_id];
    - [EvDecrypt]: [decrypt_api_key];
    - [EvClientOpen], [EvClientClose]: entering and leaving
      [async with httpx.AsyncClient()];
    - [EvRequest]: [client.request], an outbound call;
    - [EvStreamRequest]: [client.stream] sends its request, an outbound call;
    - [EvStreamOpened]: the streamed response is entered, its connection held;
    - [EvStreamRead]: one item is asked of [response.aiter_bytes()];
    - [EvStreamClose]: leaving [async with client.stream(...)], which closes
      the response and releases its connection. *)
Inductive Event : Type :=
| EvLookup (user_id : Z)
| EvDecrypt (blob : string)
| EvClientOpen
| EvClientClose
| EvRequest (req : Request)
| EvStreamRequest (req : Request)
| EvStreamOpened
| EvStreamRead
| EvStreamClose.

(** The service object together with everything it talks to. *)
Record World : Type := {
  self : KiroService;
  plugin_api_keys : gmap Z PluginAPIKey;
  decrypt_api_key : string -> Result string;
  upstream : Request -> Result Response;
  upstream_stream : Request -> Result StreamResponse;
  log : list Event
}.

Definition with_log (w : World) (l : list Event) : World :=
  {| self := self w;
     plugin_api_keys := plugin_api_keys w;
     decrypt_api_key := decrypt_api_key w;
     upstream := upstream w;
     upstream_stream := upstream_stream w;
     log := l |}.

(** ** The monad of the coroutines: state and exceptions *)

Definition M (A : Type) : Type := World -> Result A * World.

Definition ret {A} (a : A) : M A := fun w => (Ok a, w).

Definition bind {A B} (c : M A) (k : A -> M B) : M B :=
  fun w =>
    match c w with
    | (Ok a, w') => k a w'
    | (Raise e, w') => (Raise e, w')
    end.

Definition raise {A} (e : Exc) : M A := fun w => (Raise e, w).

Notation "'let!' x ':=' c 'in' k" := (bind c (fun x => k))
  (at level 10, x name, c at level 100, k at level 200,
   format "'[v' 'let!'  x  :=  c  'in' '/' k ']'").

Definition emit (e : Event) : M unit :=
  fun w => (Ok tt, with_log w (log w ++ [e])).

Definition ask {A} (f : World -> A) : M A := fun w => (Ok (f w), w).

Definition lift {A} (f : World -> Result A) : M A := fun w => (f w, w).

(** [async with ... :] runs the exit handler on every way out of the body. *)
Definition finally {A} (body : M A) (on_exit : M unit) : M A :=
  fun w =>
    match body w with
    | (r, w') =>
        match on_exit w' with
        | (Ok _, w'') => (r, w'')
        | (Raise e, w'') => (Raise e, w'')
        end
    end.

(** ** [__init__] *)

Definition KiroService_init (session : Z) (get_settings : Settings) : KiroService :=
  {| db := session;
     settings := get_settings;
     plugin_api_key_repo := {| repo_db := session |};
     base_url := plugin_api_base_url get_settings |}.

(** [SUPPORTED_MODELS], the class attribute. *)
Definition SUPPORTED_MODELS : list string :=
  [ "claude-sonnet-4-5";
    "claude-sonnet-4-5-20250929";
    "claude-sonnet-4-20250514";
    "claude-opus-4-5-20251101";
    "claude-haiku-4-5-20251001" ]%string.

(** ** [_get_user_plugin_key] *)

Definition get_by_user_id (user_id : Z) : M (option PluginAPIKey) :=
  let! _ := emit (EvLookup user_id) in
  ask (fun w => plugin_api_keys w !! user_id).

Definition call_decrypt_api_key (blob : string) : M string :=
  let! _ := emit (EvDecrypt blob) in
  lift (fun w => decrypt_api_key w blob).

Definition not_configured : Exc :=
  ValueError "用户未配置插件API密钥".

Definition _get_user_plugin_key (user_id : Z) : M string :=
  let! key_record := get_by_user_id user_id in
  match key_record with
  | None => raise not_configured
  | Some r =>
      if negb (is_active r) then raise not_configured
      else call_decrypt_api_key (api_key r)
  end.

(** ** [_proxy_request] *)

(** [httpx.Response.is_success]. *)
Definition is_success (status : Z) : bool :=
  (200 <=? status) && (status <=? 299).

Definition raise_for_status (response : Response) : M unit :=
  if is_success (status_code response) then ret tt
  else raise (HTTPStatusError (status_code response) (Some (content response))).

Definition response_json (response : Response) : M Json :=
  match json_doc response with
  | Some doc => ret doc
  | None => raise JSONDecodeError
  end.

Definition client_request (req : Request) : M Response :=
  let! _ := emit (EvRequest req) in
  lift (fun w => upstream w req).

Definition with_AsyncClient {A} (body : M A) : M A :=
  let! _ := emit EvClientOpen in
  finally body (emit EvClientClose).

Definition bearer (token : string) : gmap string string :=
  {[ "Authorization"%string := ("Bearer " +:+ token)%string ]}.

Definition _proxy_request (user_id : Z) (meth path : string)
    (json_data : option Json) (query : option (gmap string Json)) : M Json :=
  let! token := _get_user_plugin_key user_id in
  let! base := ask (fun w => base_url (self w)) in
  let target := (base +:+ path)%string in
  let hdrs := bearer token in
  with_AsyncClient (
    let! response := client_request
      {| method := meth; url := target; json := json_data;
         params := query; headers := hdrs; timeout := 300 |} in
    let! _ := raise_for_status response in
    response_json response).

(** ** [_proxy_stream_request]

    An async generator.  Its frame is either not started yet, parked at
    [yield chunk] (inside both [async with] blocks, with what is left of
    [response.aiter_bytes()]), or finished. *)

Inductive AsyncGen : Type :=
| GenCreated (user_id : Z) (meth path : string) (json_data : option Json)
| GenSuspended (rest : list bytes) (failure : option Exc)
| GenClosed.

(** What one [__anext__] gives the consumer. *)
Inductive Step : Type :=
| Yield (chunk : bytes)
| StopAsyncIteration
| Raised (e : Exc).

(** Leaving [async with client.stream(...)] and then
    [async with httpx.AsyncClient()]. *)
Definition leave_stream_and_client : M unit :=
  let! _ := emit EvStreamClose in
  emit EvClientClose.

(** One turn of [async for chunk in response.aiter_bytes(): yield chunk].
    The result is the chunk to yield and the parked frame, or [None] when
    the body of the generator returns. *)
Definition next_chunk (rest : list bytes) (failure : option Exc)
    : M (option bytes * AsyncGen) :=
  let! _ := emit EvStreamRead in
  match rest with
  | chunk :: rest' => ret (Some chunk, GenSuspended rest' failure)
  | [] =>
      let! _ := leave_stream_and_client in
      match failure with
      | None => ret (None, GenClosed)
      | Some e => raise e
      end
  end.

(** The body of the generator from its first line to its first [yield]. *)
Definition start_stream (user_id : Z) (meth path : string)
    (json_data : option Json) : M (option bytes * AsyncGen) :=
  let! token := _get_user_plugin_key user_id in
  let! base := ask (fun w => base_url (self w)) in
  let target := (base +:+ path)%string in
  let hdrs := bearer token in
  let req :=
    {| method := meth; url := target; json := json_data;
       params := None; headers := hdrs; timeout := 300 |} in
  let! _ := emit EvClientOpen in
  let! _ := emit (EvStreamRequest req) in
  let! entered := ask (fun w => upstream_stream w req) in
  match entered with
  | Raise e =>
      let! _ := emit EvClientClose in
      raise e
  | Ok response =>
      let! _ := emit EvStreamOpened in
      if is_success (stream_status response) then
        next_chunk (stream_chunks response) (stream_failure response)
      else
        let! _ := leave_stream_and_client in
        raise (HTTPStatusError (stream_status response) None)
  end.

Definition resume (g : AsyncGen) : M (option bytes * AsyncGen) :=
  match g with
  | GenCreated user_id meth path json_data =>
      start_stream user_id meth path json_data
  | GenSuspended rest failure => next_chunk rest failure
  | GenClosed => ret (None, GenClosed)
  end.

(** [__anext__]: run the frame to its next [yield], [return] or exception.
    A generator that returned or raised is finished. *)
Definition anext (g : AsyncGen) (w : World) : Step * AsyncGen * World :=
  match resume g w with
  | (Ok (Some chunk, g'), w') => (Yield chunk, g', w')
  | (Ok (None, _), w') => (StopAsyncIteration, GenClosed, w')
  | (Raise e, w') => (Raised e, GenClosed, w')
  end.

(** [aclose]: what happens to a generator the consumer abandons, called by
    the consumer or by the event loop when it finalises the generator.
    [GeneratorExit] is thrown at the [yield] where the frame is parked and
    unwinds through both [async with] blocks; a frame that never ran or has
    finished runs no code. *)
Definition aclose (g : AsyncGen) (w : World) : AsyncGen * World :=
  match g with
  | GenSuspended _ _ => (GenClosed, snd (leave_stream_and_client w))
  | GenCreated _ _ _ _ => (GenClosed, w)
  | GenClosed => (GenClosed, w)
  end.

Definition _proxy_stream_request (user_id : Z) (meth path : string)
    (json_data : option Json) : AsyncGen :=
  GenCreated user_id meth path json_data.

(** ** The public methods *)

Definition get_oauth_authorize_url (user_id : Z) (provider : string)
    (is_shared : Z) : M Json :=
  _proxy_request user_id "POST" "/api/kiro/oauth/authorize"
    (Some (JDict [("provider"%string, JStr provider);
                  ("is_shared"%string, JInt is_shared)]))
    None.

Definition get_oauth_status (user_id : Z) (state : string) : M Json :=
  _proxy_request user_id "GET" ("/api/kiro/oauth/status/" +:+ state) None None.

Definition create_account (user_id : Z) (account_data : Json) : M Json :=
  _proxy_request user_id "POST" "/api/kiro/accounts" (Some account_data) None.

Definition get_accounts (user_id : Z) : M Json :=
  _proxy_request user_id "GET" "/api/kiro/accounts" None None.

Definition get_account (user_id : Z) (account_id : string) : M Json :=
  _proxy_request user_id "GET" ("/api/kiro/accounts/" +:+ account_id) None None.

Definition update_account_status (user_id : Z) (account_id : string)
    (status : Z) : M Json :=
  _proxy_request user_id "PUT"
    ("/api/kiro/accounts/" +:+ account_id +:+ "/status")
    (Some (JDict [("status"%string, JInt status)])) None.

Definition update_account_name (user_id : Z) (account_id account_name : string)
    : M Json :=
  _proxy_request user_id "PUT"
    ("/api/kiro/accounts/" +:+ account_id +:+ "/name")
    (Some (JDict [("account_name"%string, JStr account_name)])) None.

Definition get_account_balance (user_id : Z) (account_id : string) : M Json :=
  _proxy_request user_id "GET"
    ("/api/kiro/accounts/" +:+ account_id +:+ "/balance") None None.

(** [if x is not None: params[key] = x]. *)
Definition set_if_not_none (key : string) (x : option Z)
    (query : gmap string Json) : gmap string Json :=
  match x with
  | Some n => <[key := JInt n]> query
  | None => query
  end.

(** Truth value of an [Optional[str]]: [None] and the empty string are
    false. *)
Definition truthy (x : option string) : bool :=
  match x with
  | Some (String _ _) => true
  | Some EmptyString => false
  | None => false
  end.

(** [if x: params[key] = x]. *)
Definition set_if_truthy (key : string) (x : option string)
    (query : gmap string Json) : gmap string Json :=
  match x with
  | Some s => if truthy x then <[key := JStr s]> query else query
  | None => query
  end.

(** The [params] dictionary [get_account_consumption] builds. *)
Definition consumption_params (limit offset : option Z)
    (start_date end_date : option string) : gmap string Json :=
  let query := ∅ in
  let query := set_if_not_none "limit" limit query in
  let query := set_if_not_none "offset" offset query in
  let query := set_if_truthy "start_date" start_date query in
  let query := set_if_truthy "end_date" end_date query in
  query.

Definition get_account_consumption (user_id : Z) (account_id : string)
    (limit offset : option Z) (start_date end_date : option string) : M Json :=
  _proxy_request user_id "GET"
    ("/api/kiro/accounts/" +:+ account_id +:+ "/consumption") None
    (Some (consumption_params limit offset start_date end_date)).

(** The [params] dictionary [get_user_consumption_stats] builds. *)
Definition stats_params (start_date end_date : option string)
    : gmap string Json :=
  let query := ∅ in
  let query := set_if_truthy "start_date" start_date query in
  let query := set_if_truthy "end_date" end_date query in
  query.

Definition get_user_consumption_stats (user_id : Z)
    (start_date end_date : option string) : M Json :=
  _proxy_request user_id "GET" "/api/kiro/consumption/stats" None
    (Some (stats_params start_date end_date)).

Definition delete_account (user_id : Z) (account_id : string) : M Json :=
  _proxy_request user_id "DELETE" ("/api/kiro/accounts/" +:+ account_id)
    None None.

Definition get_models (user_id : Z) : M Json :=
  _proxy_request user_id "GET" "/v1/kiro/models" None None.

Definition chat_completions (user_id : Z) (request_data : Json) : M Json :=
  _proxy_request user_id "POST" "/v1/kiro/chat/completions"
    (Some request_data) None.

(** [chat_completions_stream] is a generator around the generator of
    [_proxy_stream_request]: it yields again what the inner one yields. *)
Inductive ChatStream : Type :=
| ChatCreated (user_id : Z) (request_data : Json)
| ChatSuspended (inner : AsyncGen)
| ChatClosed.

Definition forward (inner : AsyncGen) (w : World) : Step * ChatStream * World :=
  match anext inner w with
  | (Yield chunk, inner', w') => (Yield chunk, ChatSuspended inner', w')
  | (StopAsyncIteration, _, w') => (StopAsyncIteration, ChatClosed, w')
  | (Raised e, _, w') => (Raised e, ChatClosed, w')
  end.

Definition chat_anext (g : ChatStream) (w : World) : Step * ChatStream * World :=
  match g with
  | ChatCreated user_id request_data =>
      forward (_proxy_stream_request user_id "POST" "/v1/kiro/chat/completions"
                 (Some request_data)) w
  | ChatSuspended inner => forward inner w
  | ChatClosed => (StopAsyncIteration, ChatClosed, w)
  end.

Definition chat_completions_stream (user_id : Z) (request_data : Json)
    : ChatStream :=
  ChatCreated user_id request_data.

(** ** Consumers *)

(** How an [async for] over a generator ended; [Pending] when the consumer
    stopped asking before the generator finished. *)
Inductive Ending : Type :=
| Exhausted
| Failed (e : Exc)
| Pending.

(** [async for chunk in gen], asking at most [pulls] times. *)
Fixpoint consume {G : Type} (next : G -> World -> Step * G * World)
    (pulls : nat) (g : G) (w : World) : list bytes * Ending * G * World :=
  match pulls with
  | O => ([], Pending, g, w)
  | S n =>
      match next g w with
      | (Yield chunk, g', w') =>
          match consume next n g' w' with
          | (chunks, ending, g'', w'') => (chunk :: chunks, ending, g'', w'')
          end
      | (StopAsyncIteration, g', w') => ([], Exhausted, g', w')
      | (Raised e, g', w') => ([], Failed e, g', w')
      end
  end.

(** ** The vocabulary of the statements *)

(** The user has no usable key: no row, or a row that is not active. *)
Definition no_active_key (w : World) (user_id : Z) : Prop :=
  match plugin_api_keys w !! user_id with
  | None => True
  | Some r => is_active r = false
  end.

(** The request [_proxy_request] and [_proxy_stream_request] build for a
    decrypted key. *)
Definition outgoing (w : World) (token meth path : string)
    (json_data : option Json) (query : option (gmap string Json)) : Request :=
  {| method := meth; url := (base_url (self w) +:+ path)%string;
     json := json_data; params := query; headers := bearer token;
     timeout := 300 |}.

(** What the caller gets for what the plugin API answered. *)
Definition relayed (answer : Result Response) : Result Json :=
  match answer with
  | Raise e => Raise e
  | Ok response =>
      if is_success (status_code response) then
        match json_doc response with
        | Some doc => Ok doc
        | None => Raise JSONDecodeError
        end
      else Raise (HTTPStatusError (status_code response) (Some (content response)))
  end.

(** The outbound calls in a log. *)
Definition outbound_calls (l : list Event) : list Request :=
  omap (fun e => match e with
                 | EvRequest req => Some req
                 | EvStreamRequest req => Some req
                 | _ => None
                 end) l.

(** The events up to the moment the streamed response is entered. *)
Definition opening (user_id : Z) (r : PluginAPIKey) (req : Request) : list Event :=
  [EvLookup user_id; EvDecrypt (api_key r); EvClientOpen; EvStreamRequest req;
   EvStreamOpened].

(** How a body ends once its chunks are read. *)
Definition ending_of (failure : option Exc) : Ending :=
  match failure with
  | None => Exhausted
  | Some e => Failed e
  end.

(** The generator of [chat_completions_stream] follows the inner one. *)
Definition around (ending : Ending) (inner : AsyncGen) : ChatStream :=
  match ending with
  | Pending => ChatSuspended inner
  | _ => ChatClosed
  end.

(** *** The catalogue as data *)

(** A call of one of the public coroutines, with its arguments but for the
    user. *)
Inductive Call : Type :=
| GetOauthAuthorizeUrl (provider : string) (is_shared : Z)
| GetOauthStatus (state : string)
| CreateAccount (account_data : Json)
| GetAccounts
| GetAccount (account_id : string)
| UpdateAccountStatus (account_id : string) (status : Z)
| UpdateAccountName (account_id account_name : string)
| GetAccountBalance (account_id : string)
| GetAccountConsumption (account_id : string) (limit offset : option Z)
    (start_date end_date : option string)
| GetUserConsumptionStats (start_date end_date : option string)
| DeleteAccount (account_id : string)
| GetModels
| ChatCompletions (request_data : Json).

Definition invoke (c : Call) (user_id : Z) : M Json :=
  match c with
  | GetOauthAuthorizeUrl provider is_shared =>
      get_oauth_authorize_url user_id provider is_shared
  | GetOauthStatus state => get_oauth_status user_id state
  | CreateAccount account_data => create_account user_id account_data
  | GetAccounts => get_accounts user_id
  | GetAccount account_id => get_account user_id account_id
  | UpdateAccountStatus account_id status =>
      update_account_status user_id account_id status
  | UpdateAccountName account_id account_name =>
      update_account_name user_id account_id account_name
  | GetAccountBalance account_id => get_account_balance user_id account_id
  | GetAccountConsumption account_id limit offset start_date end_date =>
      get_account_consumption user_id account_id limit offset start_date
        end_date
  | GetUserConsumptionStats start_date end_date =>
      get_user_consumption_stats user_id start_date end_date
  | DeleteAccount account_id => delete_account user_id account_id
  | GetModels => get_models user_id
  | ChatCompletions request_data => chat_completions user_id request_data
  end.

(** Every call of the catalogue is one call of [_proxy_request]. *)
Definition shape (c : Call) : string * string * option Json * option (gmap string Json) :=
  match c with
  | GetOauthAuthorizeUrl provider is_shared =>
      ("POST", "/api/kiro/oauth/authorize",
       Some (JDict [("provider", JStr provider); ("is_shared", JInt is_shared)]),
       None)
  | GetOauthStatus state =>
      ("GET", "/api/kiro/oauth/status/" +:+ state, None, None)
  | CreateAccount account_data =>
      ("POST", "/api/kiro/accounts", Some account_data, None)
  | GetAccounts => ("GET", "/api/kiro/accounts", None, None)
  | GetAccount account_id =>
      ("GET", "/api/kiro/accounts/" +:+ account_id, None, None)
  | UpdateAccountStatus account_id status =>
      ("PUT", "/api/kiro/accounts/" +:+ account_id +:+ "/status",
       Some (JDict [("status", JInt status)]), None)
  | UpdateAccountName account_id account_name =>
      ("PUT", "/api/kiro/accounts/" +:+ account_id +:+ "/name",
       Some (JDict [("account_name", JStr account_name)]), None)
  | GetAccountBalance account_id =>
      ("GET", "/api/kiro/accounts/" +:+ account_id +:+ "/balance", None, None)
  | GetAccountConsumption account_id limit offset start_date end_date =>
      ("GET", "/api/kiro/accounts/" +:+ account_id +:+ "/consumption", None,
       Some (consumption_params limit offset start_date end_date))
  | GetUserConsumptionStats start_date end_date =>
      ("GET", "/api/kiro/consumption/stats", None,
       Some (stats_params start_date end_date))
  | DeleteAccount account_id =>
      ("DELETE", "/api/kiro/accounts/" +:+ account_id, None, None)
  | GetModels => ("GET", "/v1/kiro/models", None, None)
  | ChatCompletions request_data =>
      ("POST", "/v1/kiro/chat/completions", Some request_data, None)
  end%string.

(** *** A small world to run the service in

    User 1 has an active key, user 2 a key that is not active, and nobody
    else has one. *)

Definition demo_keys : gmap Z PluginAPIKey :=
  {[ 1 := {| api_key := "k1-sealed"; is_active := true |};
     2 := {| api_key := "k2-sealed"; is_active := false |} ]}.

Definition demo_world (up : Request -> Result Response)
    (ups : Request -> Result StreamResponse) : World :=
  {| self := KiroService_init 7 {| plugin_api_base_url := "http://plugin" |};
     plugin_api_keys := demo_keys;
     decrypt_api_key := fun blob => Ok ("plain:" +:+ blob)%string;
     upstream := up;
     upstream_stream := ups;
     log := [] |}.

Definition unreachable : Request -> Result Response :=
  fun _ => Raise (TransportError "connection refused").

Definition unreachable_stream : Request -> Result StreamResponse :=
  fun _ => Raise (TransportError "connection refused").

(** A value that stands for "nothing": [None] or the empty string. *)
Definition blank (v : Json) : Prop := v = JNull \/ v = JStr EmptyString.

(** A plugin API that gives the same answer to every request. *)
Definition answering (status : Z) (body : bytes) (doc : option Json)
    : Request -> Result Response :=
  fun _ => Ok {| status_code := status; content := body; json_doc := doc |}.

(** The text of a JSON string: the characters between two quotation marks. *)
Definition quoted (s : string) : bytes :=
  [Byte.x22] ++ String.list_byte_of_string s ++ [Byte.x22].

(** The body [{"error":"not found"}] and the document it is the text of. *)
Definition not_found_body : bytes :=
  String.list_byte_of_string "{" ++ quoted "error"
    ++ String.list_byte_of_string ":" ++ quoted "not found"
    ++ String.list_byte_of_string "}".

Definition not_found_doc : Json := JDict [("error"%string, JStr "not found")].

(** A plugin API that streams the same response to every request. *)
Definition streaming (status : Z) (chunks : list bytes) (failure : option Exc)
    : Request -> Result StreamResponse :=
  fun _ => Ok {| stream_status := status; stream_chunks := chunks;
                 stream_failure := failure |}.

(** The chunks [b"a"], [b"b"], [b"c"]. *)
Definition abc : list bytes := [[Byte.x61]; [Byte.x62]; [Byte.x63]].

(** How many times the body of a streamed response was read. *)
Definition reads (l : list Event) : nat :=
  length (omap (fun e => match e with EvStreamRead => Some tt | _ => None end) l).

(** *** Consumers of the generator and what a log holds open *)

(** What a consumer can do with the generator. *)
Inductive Op : Type :=
| Next
| Close.

Definition apply_op (op : Op) (g : AsyncGen) (w : World) : AsyncGen * World :=
  match op with
  | Next => (snd (fst (anext g w)), snd (anext g w))
  | Close => aclose g w
  end.

Fixpoint run (ops : list Op) (g : AsyncGen) (w : World) : AsyncGen * World :=
  match ops with
  | [] => (g, w)
  | op :: ops' => run ops' (fst (apply_op op g w)) (snd (apply_op op g w))
  end.

(** Streamed responses entered and not yet left, according to a log. *)
Definition held (l : list Event) : Z :=
  foldr (fun e n => match e with
                    | EvStreamOpened => n + 1
                    | EvStreamClose => n - 1
                    | _ => n
                    end) 0 l.

(** Clients entered and not yet left, according to a log. *)
Definition clients (l : list Event) : Z :=
  foldr (fun e n => match e with
                    | EvClientOpen => n + 1
                    | EvClientClose => n - 1
                    | _ => n
                    end) 0 l.

(** A frame parked at its [yield] is inside both [async with] blocks. *)
Definition parked (g : AsyncGen) : Z :=
  match g with
  | GenSuspended _ _ => 1
  | _ => 0
  end.

(** The log of [w'] differs from that of [w] by as many connections and
    clients as [g'] holds more than [g]. *)
Definition accounted (g : AsyncGen) (w : World) (g' : AsyncGen) (w' : World)
    : Prop :=
  held (log w') - held (log w) = parked g' - parked g
  /\ clients (log w') - clients (log w) = parked g' - parked g.

(** A body that breaks after its first chunk. *)
Definition broken_after_a : Request -> Result StreamResponse :=
  streaming 200 [[Byte.x61]] (Some (TransportError "connection reset")).

(** *** Frames *)

(** The world after somebody else changed the key table. *)
Definition with_keys (w : World) (keys : gmap Z PluginAPIKey) : World :=
  {| self := self w;
     plugin_api_keys := keys;
     decrypt_api_key := decrypt_api_key w;
     upstream := upstream w;
     upstream_stream := upstream_stream w;
     log := log w |}.

(** [w'] is [w] with more events in its log: the service object, the key
    table and the collaborators are the same. *)
Definition only_logged (w w' : World) : Prop :=
  exists events, w' = with_log w (log w ++ events).

(** *** More vocabulary: budgets of a generator, other worlds *)

(** A frame that has not started may still send its one request. *)
Definition fresh (g : AsyncGen) : nat :=
  match g with
  | GenCreated _ _ _ _ => 1
  | _ => 0
  end.

(** How often a consumer asks in a sequence of operations. *)
Definition asks (ops : list Op) : nat :=
  length (omap (fun op => match op with Next => Some tt | Close => None end) ops).

(** The small world with a cipher that rejects every key. *)
Definition demo_world_bad_cipher : World :=
  {| self := KiroService_init 7 {| plugin_api_base_url := "http://plugin" |};
     plugin_api_keys := demo_keys;
     decrypt_api_key := fun _ => Raise (OtherError "InvalidToken");
     upstream := answering 200 [] (Some JNull);
     upstream_stream := streaming 200 abc None;
     log := [] |}.

(** * Properties *)

(** ** Worlds and logs *)

Lemma with_log_same (w : World) : with_log w (log w) = w.
Proof. destruct w; reflexivity. Qed.

Lemma with_log_again (w : World) (l l' : list Event) :
  with_log (with_log w l) l' = with_log w l'.
Proof. reflexivity. Qed.

Lemma emit_run (e : Event) (w : World) :
  emit e w = (Ok tt, with_log w (log w ++ [e])).
Proof. reflexivity. Qed.

(** Bring a world reached by several events back to the form
    [with_log w (log w ++ events)]. *)
Ltac tidy_log :=
  repeat (progress
    (cbn [log with_log self plugin_api_keys decrypt_api_key upstream
          upstream_stream fst snd];
     rewrite <- ?app_assoc; cbn [app])).

(** ** Token resolution *)

Lemma get_key_unconfigured (w : World) (user_id : Z) :
  no_active_key w user_id ->
  _get_user_plugin_key user_id w
  = (Raise not_configured, with_log w (log w ++ [EvLookup user_id])).
Proof.
  unfold no_active_key, _get_user_plugin_key, get_by_user_id, bind, ask, emit.
  simpl. destruct (plugin_api_keys w !! user_id) as [r|]; [|reflexivity].
  intros ->. reflexivity.
Qed.

Lemma get_key_configured (w : World) (user_id : Z) (r : PluginAPIKey) :
  plugin_api_keys w !! user_id = Some r ->
  is_active r = true ->
  _get_user_plugin_key user_id w
  = (decrypt_api_key w (api_key r),
     with_log w (log w ++ [EvLookup user_id; EvDecrypt (api_key r)])).
Proof.
  intros Hrow Hact.
  unfold _get_user_plugin_key, get_by_user_id, call_decrypt_api_key, bind, ask,
    emit, lift.
  simpl. rewrite Hrow, Hact. simpl.
  rewrite <- app_assoc. simpl.
  destruct (decrypt_api_key w (api_key r)); reflexivity.
Qed.

(** ** The single-response proxy *)

Lemma outbound_calls_app (l l' : list Event) :
  outbound_calls (l ++ l') = outbound_calls l ++ outbound_calls l'.
Proof. apply omap_app. Qed.

Lemma proxy_request_unconfigured (w : World) (user_id : Z) (meth path : string)
    (json_data : option Json) (query : option (gmap string Json)) :
  no_active_key w user_id ->
  _proxy_request user_id meth path json_data query w
  = (Raise not_configured, with_log w (log w ++ [EvLookup user_id])).
Proof.
  intros Hno. unfold _proxy_request, bind.
  rewrite (get_key_unconfigured _ _ Hno). reflexivity.
Qed.

Lemma proxy_request_sent (w : World) (user_id : Z) (r : PluginAPIKey)
    (token meth path : string) (json_data : option Json)
    (query : option (gmap string Json)) :
  plugin_api_keys w !! user_id = Some r ->
  is_active r = true ->
  decrypt_api_key w (api_key r) = Ok token ->
  let req := outgoing w token meth path json_data query in
  _proxy_request user_id meth path json_data query w
  = (relayed (upstream w req),
     with_log w (log w ++ [EvLookup user_id; EvDecrypt (api_key r);
                           EvClientOpen; EvRequest req; EvClientClose])).
Proof.
  intros Hrow Hact Hdec req. unfold _proxy_request, bind at 1.
  rewrite (get_key_configured _ _ _ Hrow Hact), Hdec.
  unfold bind at 1, ask. cbn beta iota.
  unfold with_AsyncClient, finally, client_request, raise_for_status,
    response_json, bind, emit, lift, ret, raise, relayed.
  subst req. unfold outgoing. tidy_log.
  destruct (upstream w _) as [response|e]; [|tidy_log; reflexivity].
  destruct (is_success (status_code response)); [|tidy_log; reflexivity].
  destruct (json_doc response); tidy_log; reflexivity.
Qed.

(** ** The streaming proxy *)

Lemma anext_unconfigured (w : World) (user_id : Z) (meth path : string)
    (json_data : option Json) :
  no_active_key w user_id ->
  anext (_proxy_stream_request user_id meth path json_data) w
  = (Raised not_configured, GenClosed,
     with_log w (log w ++ [EvLookup user_id])).
Proof.
  intros Hno. unfold anext, _proxy_stream_request, resume, start_stream.
  unfold bind at 1. rewrite (get_key_unconfigured _ _ Hno). reflexivity.
Qed.

Lemma anext_decrypt_failed (w : World) (user_id : Z) (r : PluginAPIKey)
    (meth path : string) (json_data : option Json) (e : Exc) :
  plugin_api_keys w !! user_id = Some r ->
  is_active r = true ->
  decrypt_api_key w (api_key r) = Raise e ->
  anext (_proxy_stream_request user_id meth path json_data) w
  = (Raised e, GenClosed,
     with_log w (log w ++ [EvLookup user_id; EvDecrypt (api_key r)])).
Proof.
  intros Hrow Hact Hdec.
  unfold anext, _proxy_stream_request, resume, start_stream.
  unfold bind at 1. rewrite (get_key_configured _ _ _ Hrow Hact), Hdec.
  reflexivity.
Qed.

Section Configured.

Variables (w : World) (user_id : Z) (r : PluginAPIKey).
Variables (token meth path : string) (json_data : option Json).

Hypothesis Hrow : plugin_api_keys w !! user_id = Some r.
Hypothesis Hact : is_active r = true.
Hypothesis Hdec : decrypt_api_key w (api_key r) = Ok token.

Let req : Request := outgoing w token meth path json_data None.

Lemma anext_connect_failed (e : Exc) :
  upstream_stream w req = Raise e ->
  anext (_proxy_stream_request user_id meth path json_data) w
  = (Raised e, GenClosed,
     with_log w (log w ++ [EvLookup user_id; EvDecrypt (api_key r);
                           EvClientOpen; EvStreamRequest req; EvClientClose])).
Proof.
  intros Hup. unfold anext, _proxy_stream_request, resume, start_stream.
  unfold bind at 1. rewrite (get_key_configured _ _ _ Hrow Hact), Hdec.
  unfold bind, ask, emit, raise. tidy_log.
  fold (outgoing w token meth path json_data None). fold req.
  rewrite Hup. tidy_log. reflexivity.
Qed.

Lemma anext_bad_status (response : StreamResponse) :
  upstream_stream w req = Ok response ->
  is_success (stream_status response) = false ->
  anext (_proxy_stream_request user_id meth path json_data) w
  = (Raised (HTTPStatusError (stream_status response) None), GenClosed,
     with_log w (log w ++ opening user_id r req
                       ++ [EvStreamClose; EvClientClose])).
Proof.
  intros Hup Hst. unfold anext, _proxy_stream_request, resume, start_stream.
  unfold bind at 1. rewrite (get_key_configured _ _ _ Hrow Hact), Hdec.
  unfold leave_stream_and_client, bind, ask, emit, raise. tidy_log.
  fold (outgoing w token meth path json_data None). fold req.
  rewrite Hup. tidy_log. rewrite Hst. tidy_log. reflexivity.
Qed.

(** With a success status the first [__anext__] goes on as any later one,
    from the world in which the response has been entered. *)
Lemma anext_entered (response : StreamResponse) :
  upstream_stream w req = Ok response ->
  is_success (stream_status response) = true ->
  anext (_proxy_stream_request user_id meth path json_data) w
  = anext (GenSuspended (stream_chunks response) (stream_failure response))
      (with_log w (log w ++ opening user_id r req)).
Proof.
  intros Hup Hst. unfold anext, _proxy_stream_request, resume, start_stream.
  unfold bind at 1. rewrite (get_key_configured _ _ _ Hrow Hact), Hdec.
  unfold bind at 1, ask. cbn beta iota.
  unfold bind at 1, emit at 1. cbn beta iota.
  unfold bind at 1, emit at 1. cbn beta iota.
  unfold bind at 1. cbn beta iota. tidy_log.
  fold (outgoing w token meth path json_data None). fold req.
  rewrite Hup. cbn beta iota.
  unfold bind at 1, emit at 1. cbn beta iota. rewrite Hst. tidy_log.
  reflexivity.
Qed.

End Configured.

(** ** Consuming a stream *)

Lemma anext_closed (w : World) :
  anext GenClosed w = (StopAsyncIteration, GenClosed, w).
Proof. reflexivity. Qed.

Lemma anext_chunk (chunk : bytes) (rest : list bytes) (failure : option Exc)
    (w : World) :
  anext (GenSuspended (chunk :: rest) failure) w
  = (Yield chunk, GenSuspended rest failure,
     with_log w (log w ++ [EvStreamRead])).
Proof. reflexivity. Qed.

Lemma anext_end (w : World) :
  anext (GenSuspended [] None) w
  = (StopAsyncIteration, GenClosed,
     with_log w (log w ++ [EvStreamRead; EvStreamClose; EvClientClose])).
Proof.
  unfold anext, resume, next_chunk, leave_stream_and_client, bind, emit, ret.
  tidy_log. reflexivity.
Qed.

Lemma anext_broken (e : Exc) (w : World) :
  anext (GenSuspended [] (Some e)) w
  = (Raised e, GenClosed,
     with_log w (log w ++ [EvStreamRead; EvStreamClose; EvClientClose])).
Proof.
  unfold anext, resume, next_chunk, leave_stream_and_client, bind, emit, raise.
  tidy_log. reflexivity.
Qed.

Lemma consume_step {G : Type} (next : G -> World -> Step * G * World)
    (pulls : nat) (g : G) (w : World) :
  consume next (S pulls) g w
  = match next g w with
    | (Yield chunk, g', w') =>
        match consume next pulls g' w' with
        | (chunks, ending, g'', w'') => (chunk :: chunks, ending, g'', w'')
        end
    | (StopAsyncIteration, g', w') => ([], Exhausted, g', w')
    | (Raised e, g', w') => ([], Failed e, g', w')
    end.
Proof. reflexivity. Qed.

(** Asking more often than there are chunks reads the whole body. *)
Lemma consume_to_the_end (rest : list bytes) (failure : option Exc)
    (extra : nat) (w : World) :
  consume anext (S (length rest) + extra) (GenSuspended rest failure) w
  = (rest, ending_of failure, GenClosed,
     with_log w (log w ++ replicate (S (length rest)) EvStreamRead
                       ++ [EvStreamClose; EvClientClose])).
Proof.
  revert w. induction rest as [|chunk rest IH]; intros w.
  - cbn [length Nat.add]. rewrite consume_step.
    destruct failure as [e|].
    + rewrite anext_broken. reflexivity.
    + rewrite anext_end. reflexivity.
  - change (S (length (chunk :: rest)) + extra)%nat
      with (S (S (length rest) + extra)).
    rewrite consume_step, anext_chunk, IH. tidy_log. reflexivity.
Qed.

(** Asking at most as often as there are chunks reads that many and no
    more, and leaves the generator parked. *)
Lemma consume_some (pulls : nat) (rest : list bytes) (failure : option Exc)
    (w : World) :
  (pulls <= length rest)%nat ->
  consume anext pulls (GenSuspended rest failure) w
  = (take pulls rest, Pending, GenSuspended (drop pulls rest) failure,
     with_log w (log w ++ replicate pulls EvStreamRead)).
Proof.
  revert rest w. induction pulls as [|pulls IH]; intros rest w Hle.
  - cbn [consume take drop replicate]. rewrite app_nil_r, with_log_same.
    reflexivity.
  - destruct rest as [|chunk rest]; [cbn [length] in Hle; lia|].
    rewrite consume_step, anext_chunk, IH by (cbn [length] in Hle; lia).
    tidy_log. reflexivity.
Qed.

(** A finished generator gives nothing more and does nothing. *)
Lemma consume_closed (pulls : nat) (w : World) :
  consume anext (S pulls) GenClosed w = ([], Exhausted, GenClosed, w).
Proof. reflexivity. Qed.

Lemma consume_chat_suspended (pulls : nat) (inner : AsyncGen) (w : World) :
  consume chat_anext pulls (ChatSuspended inner) w
  = match consume anext pulls inner w with
    | (chunks, ending, inner', w') => (chunks, ending, around ending inner', w')
    end.
Proof.
  revert inner w. induction pulls as [|pulls IH]; intros inner w.
  - reflexivity.
  - rewrite !consume_step. cbn [chat_anext]. unfold forward.
    destruct (anext inner w) as [[[chunk| |e] inner'] w']; try reflexivity.
    rewrite IH.
    destruct (consume anext pulls inner' w') as [[[chunks ending] inner''] w''].
    reflexivity.
Qed.

Lemma consume_chat_created (pulls : nat) (user_id : Z) (request_data : Json)
    (w : World) :
  consume chat_anext (S pulls) (chat_completions_stream user_id request_data) w
  = match consume anext (S pulls)
            (_proxy_stream_request user_id "POST" "/v1/kiro/chat/completions"
               (Some request_data)) w with
    | (chunks, ending, inner', w') => (chunks, ending, around ending inner', w')
    end.
Proof.
  rewrite !consume_step. cbn [chat_anext chat_completions_stream].
  unfold forward.
  destruct (anext _ w) as [[[chunk| |e] inner'] w']; try reflexivity.
  rewrite consume_chat_suspended.
  destruct (consume anext pulls inner' w') as [[[chunks ending] inner''] w''].
  reflexivity.
Qed.

(** The first pull of a fresh generator whose response has a success status. *)
Lemma consume_entered (w : World) (user_id : Z) (r : PluginAPIKey)
    (token meth path : string) (json_data : option Json)
    (response : StreamResponse) (pulls : nat) :
  plugin_api_keys w !! user_id = Some r ->
  is_active r = true ->
  decrypt_api_key w (api_key r) = Ok token ->
  let req := outgoing w token meth path json_data None in
  upstream_stream w req = Ok response ->
  is_success (stream_status response) = true ->
  consume anext (S pulls) (_proxy_stream_request user_id meth path json_data) w
  = consume anext (S pulls)
      (GenSuspended (stream_chunks response) (stream_failure response))
      (with_log w (log w ++ opening user_id r req)).
Proof.
  intros Hrow Hact Hdec req Hup Hst. rewrite !consume_step.
  rewrite (anext_entered w user_id r token meth path json_data Hrow Hact Hdec
             response Hup Hst).
  reflexivity.
Qed.

(** ** The catalogue *)

Lemma invoke_shape (c : Call) (user_id : Z) :
  invoke c user_id
  = match shape c with
    | (meth, path, json_data, query) =>
        _proxy_request user_id meth path json_data query
    end.
Proof. destruct c; reflexivity. Qed.

(** ** The small world *)

Example demo_lookup_1 :
  demo_keys !! 1 = Some {| api_key := "k1-sealed"; is_active := true |}.
Proof. reflexivity. Qed.

Example demo_lookup_3 : demo_keys !! 3 = None.
Proof. reflexivity. Qed.

(** ** C1: no active key, no call *)

(** C1.  For a user whose key row is missing or not active, the
    single-response proxy, the streaming proxy on its first [__anext__],
    every method of the catalogue and the streaming chat completion fail
    with the same error, [ValueError("用户未配置插件API密钥")], whichever of the
    two cases holds; the only thing that happened is the lookup of the row, so
    no outbound call was added to the log. *)
Theorem unconfigured_user_fails_before_any_call (w : World) (user_id : Z) :
  no_active_key w user_id ->
  let w' := with_log w (log w ++ [EvLookup user_id]) in
  (forall meth path json_data query,
      _proxy_request user_id meth path json_data query w
      = (Raise not_configured, w'))
  /\ (forall meth path json_data,
      anext (_proxy_stream_request user_id meth path json_data) w
      = (Raised not_configured, GenClosed, w'))
  /\ (forall c, invoke c user_id w = (Raise not_configured, w'))
  /\ (forall request_data,
      chat_anext (chat_completions_stream user_id request_data) w
      = (Raised not_configured, ChatClosed, w'))
  /\ outbound_calls (log w') = outbound_calls (log w).
Proof.
  intros Hno w'. repeat apply conj.
  - intros. apply proxy_request_unconfigured, Hno.
  - intros. apply anext_unconfigured, Hno.
  - intros c. rewrite invoke_shape.
    destruct (shape c) as [[[meth path] json_data] query].
    apply proxy_request_unconfigured, Hno.
  - intros request_data. cbn [chat_anext chat_completions_stream].
    unfold forward. rewrite (anext_unconfigured _ _ _ _ _ Hno). reflexivity.
  - subst w'. cbn [log with_log]. rewrite outbound_calls_app.
    cbn. apply app_nil_r.
Qed.

(** C1 at user 2, whose key is not active, and user 3, who has none: the
    same outcome, and the log holds no request. *)
Lemma unconfigured_user_fails_before_any_call_witness :
  no_active_key (demo_world unreachable unreachable_stream) 2
  /\ invoke GetAccounts 2 (demo_world unreachable unreachable_stream)
     = (Raise not_configured,
        with_log (demo_world unreachable unreachable_stream) [EvLookup 2])
  /\ fst (invoke GetAccounts 3 (demo_world unreachable unreachable_stream))
     = fst (invoke GetAccounts 2 (demo_world unreachable unreachable_stream)).
Proof.
  assert (H2 : no_active_key (demo_world unreachable unreachable_stream) 2)
    by reflexivity.
  assert (H3 : no_active_key (demo_world unreachable unreachable_stream) 3)
    by exact I.
  split; [exact H2|]. split.
  - apply (unconfigured_user_fails_before_any_call _ 2 H2).
  - destruct (unconfigured_user_fails_before_any_call _ 3 H3)
      as (_ & _ & E3 & _).
    destruct (unconfigured_user_fails_before_any_call _ 2 H2)
      as (_ & _ & E2 & _).
    rewrite E3, E2. reflexivity.
Defined.

(** ** C2, C10: the query parameters *)

Lemma set_if_not_none_lookup (key k : string) (x : option Z)
    (query : gmap string Json) :
  set_if_not_none key x query !! k
  = if decide (key = k) then
      match x with Some n => Some (JInt n) | None => query !! k end
    else query !! k.
Proof.
  unfold set_if_not_none. destruct x as [n|].
  - rewrite lookup_insert. reflexivity.
  - destruct (decide (key = k)); reflexivity.
Qed.

Lemma set_if_truthy_lookup (key k : string) (x : option string)
    (query : gmap string Json) :
  set_if_truthy key x query !! k
  = if decide (key = k) then
      match x with
      | Some (String c s) => Some (JStr (String c s))
      | _ => query !! k
      end
    else query !! k.
Proof.
  unfold set_if_truthy. destruct x as [[|c s]|]; cbn [truthy].
  - destruct (decide (key = k)); reflexivity.
  - rewrite lookup_insert. reflexivity.
  - destruct (decide (key = k)); reflexivity.
Qed.

(** What the dictionary of [get_account_consumption] holds under each key. *)
Lemma consumption_params_lookup (limit offset : option Z)
    (start_date end_date : option string) (k : string) :
  consumption_params limit offset start_date end_date !! k
  = if decide ("end_date"%string = k) then
      match end_date with
      | Some (String c s) => Some (JStr (String c s))
      | _ => None
      end
    else if decide ("start_date"%string = k) then
      match start_date with
      | Some (String c s) => Some (JStr (String c s))
      | _ => None
      end
    else if decide ("offset"%string = k) then JInt <$> offset
    else if decide ("limit"%string = k) then JInt <$> limit
    else None.
Proof.
  unfold consumption_params.
  rewrite !set_if_truthy_lookup, !set_if_not_none_lookup, lookup_empty.
  repeat case_decide; subst; try discriminate;
    destruct end_date as [[|? ?]|], start_date as [[|? ?]|], offset, limit;
    reflexivity.
Qed.

Lemma stats_params_lookup (start_date end_date : option string) (k : string) :
  stats_params start_date end_date !! k
  = if decide ("end_date"%string = k) then
      match end_date with
      | Some (String c s) => Some (JStr (String c s))
      | _ => None
      end
    else if decide ("start_date"%string = k) then
      match start_date with
      | Some (String c s) => Some (JStr (String c s))
      | _ => None
      end
    else None.
Proof.
  unfold stats_params. rewrite !set_if_truthy_lookup, lookup_empty.
  repeat case_decide; subst; try discriminate;
    destruct end_date as [[|? ?]|], start_date as [[|? ?]|]; reflexivity.
Qed.

(** C2.  A parameter the caller leaves unset ([None]) is not a key of the
    query dictionary, for the consumption list and for the consumption
    statistics; no key is bound to a null or empty value; with only
    [limit=10] the dictionary is exactly [{limit: 10}]; and for a user with
    a usable key that dictionary is the [params] of the one request sent. *)
Theorem unset_parameters_are_omitted (w : World) (user_id : Z)
    (r : PluginAPIKey) (token account_id : string) (limit offset : option Z)
    (start_date end_date : option string) :
  plugin_api_keys w !! user_id = Some r ->
  is_active r = true ->
  decrypt_api_key w (api_key r) = Ok token ->
  let listed := consumption_params limit offset start_date end_date in
  let stats := stats_params start_date end_date in
  (limit = None -> listed !! "limit" = None)
  /\ (offset = None -> listed !! "offset" = None)
  /\ (start_date = None -> listed !! "start_date" = None /\ stats !! "start_date" = None)
  /\ (end_date = None -> listed !! "end_date" = None /\ stats !! "end_date" = None)
  /\ (forall k v, listed !! k = Some v \/ stats !! k = Some v -> ~ blank v)
  /\ consumption_params (Some 10) None None None = {[ "limit"%string := JInt 10 ]}
  /\ outbound_calls
       (log (snd (get_account_consumption user_id account_id limit offset
                    start_date end_date w)))
     = outbound_calls (log w)
       ++ [outgoing w token "GET"
             ("/api/kiro/accounts/" +:+ account_id +:+ "/consumption")
             None (Some listed)]
  /\ outbound_calls
       (log (snd (get_user_consumption_stats user_id start_date end_date w)))
     = outbound_calls (log w)
       ++ [outgoing w token "GET" "/api/kiro/consumption/stats" None
             (Some stats)].
Proof.
  intros Hrow Hact Hdec listed stats. subst listed stats.
  repeat apply conj.
  - intros ->. rewrite consumption_params_lookup. reflexivity.
  - intros ->. rewrite consumption_params_lookup. reflexivity.
  - intros ->. rewrite consumption_params_lookup, stats_params_lookup.
    split; reflexivity.
  - intros ->. rewrite consumption_params_lookup, stats_params_lookup.
    split; reflexivity.
  - intros k v. rewrite consumption_params_lookup, stats_params_lookup.
    unfold blank.
    intros [H|H]; repeat case_decide;
      destruct end_date as [[|? ?]|], start_date as [[|? ?]|], offset, limit;
      simplify_eq/=; intros [?|?]; discriminate.
  - reflexivity.
  - unfold get_account_consumption.
    rewrite (proxy_request_sent w user_id r token _ _ _ _ Hrow Hact Hdec).
    cbn [snd log with_log]. rewrite outbound_calls_app. reflexivity.
  - unfold get_user_consumption_stats.
    rewrite (proxy_request_sent w user_id r token _ _ _ _ Hrow Hact Hdec).
    cbn [snd log with_log]. rewrite outbound_calls_app. reflexivity.
Qed.

(** C2 at user 1 of the small world, who asks for the consumption list of
    account [acc] with [limit=10] only: one request, whose [params] is
    [{limit: 10}]. *)
Lemma unset_parameters_are_omitted_witness :
  let w := demo_world unreachable unreachable_stream in
  plugin_api_keys w !! 1 = Some {| api_key := "k1-sealed"; is_active := true |}
  /\ decrypt_api_key w "k1-sealed" = Ok "plain:k1-sealed"%string
  /\ params <$> outbound_calls
       (log (snd (get_account_consumption 1 "acc" (Some 10) None None None w)))
     = [Some {[ "limit"%string := JInt 10 ]}].
Proof.
  intros w.
  split; [reflexivity|]. split; [reflexivity|].
  destruct (unset_parameters_are_omitted w 1
              {| api_key := "k1-sealed"; is_active := true |}
              "plain:k1-sealed" "acc" (Some 10) None None None
              eq_refl eq_refl eq_refl)
    as (_ & _ & _ & _ & _ & Hten & Hsent & _).
  rewrite Hsent, Hten. reflexivity.
Defined.

(** C10.  [limit] and [offset] are sent whenever they are not [None], so a
    zero is sent; [start_date] and [end_date] are sent only when they are
    true values, so an empty string builds the same dictionary, and the same
    call, as [None] does.  A date that is not empty is sent.  The
    dictionaries are the ones that go out: for a user with a usable key each
    of the two operations sends one request whose [params] is the dictionary
    built from its arguments, so the request of a call with [limit=0] and
    [offset=0] has [params = {limit: 0, offset: 0}], and the request of a
    call whose only arguments are empty dates has the empty [params] of a
    call without arguments. *)
Theorem integers_by_presence_dates_by_truth (limit offset : option Z)
    (start_date end_date : option string) (n : Z) (c : Ascii.ascii) (s : string)
    (user_id : Z) (account_id : string) :
  consumption_params (Some n) offset start_date end_date !! "limit"
    = Some (JInt n)
  /\ consumption_params limit (Some n) start_date end_date !! "offset"
    = Some (JInt n)
  /\ consumption_params (Some 0) (Some 0) None None
    = {[ "limit"%string := JInt 0; "offset"%string := JInt 0 ]}
  /\ consumption_params limit offset (Some EmptyString) end_date
    = consumption_params limit offset None end_date
  /\ consumption_params limit offset start_date (Some EmptyString)
    = consumption_params limit offset start_date None
  /\ stats_params (Some EmptyString) end_date = stats_params None end_date
  /\ stats_params start_date (Some EmptyString) = stats_params start_date None
  /\ consumption_params limit offset (Some (String c s)) end_date !! "start_date"
    = Some (JStr (String c s))
  /\ consumption_params limit offset start_date (Some (String c s)) !! "end_date"
    = Some (JStr (String c s))
  /\ stats_params (Some (String c s)) end_date !! "start_date"
    = Some (JStr (String c s))
  /\ stats_params start_date (Some (String c s)) !! "end_date"
    = Some (JStr (String c s))
  /\ get_account_consumption user_id account_id limit offset
       (Some EmptyString) (Some EmptyString)
     = get_account_consumption user_id account_id limit offset None None
  /\ get_user_consumption_stats user_id (Some EmptyString) (Some EmptyString)
     = get_user_consumption_stats user_id None None
  /\ (forall (w : World) (r : PluginAPIKey) (token : string),
        plugin_api_keys w !! user_id = Some r ->
        is_active r = true ->
        decrypt_api_key w (api_key r) = Ok token ->
        let sent (call : M Json) := outbound_calls (log (snd (call w))) in
        let listing := ("/api/kiro/accounts/" +:+ account_id +:+ "/consumption")%string in
        let totals := "/api/kiro/consumption/stats"%string in
        sent (get_account_consumption user_id account_id limit offset
                start_date end_date)
        = outbound_calls (log w)
          ++ [outgoing w token "GET" listing None
                (Some (consumption_params limit offset start_date end_date))]
        /\ sent (get_user_consumption_stats user_id start_date end_date)
           = outbound_calls (log w)
             ++ [outgoing w token "GET" totals None
                   (Some (stats_params start_date end_date))]
        /\ sent (get_account_consumption user_id account_id (Some 0) (Some 0)
                   None None)
           = outbound_calls (log w)
             ++ [outgoing w token "GET" listing None
                   (Some {[ "limit"%string := JInt 0;
                            "offset"%string := JInt 0 ]})]
        /\ sent (get_account_consumption user_id account_id None None
                   (Some EmptyString) (Some EmptyString))
           = outbound_calls (log w)
             ++ [outgoing w token "GET" listing None (Some ∅)]
        /\ sent (get_user_consumption_stats user_id (Some EmptyString)
                   (Some EmptyString))
           = outbound_calls (log w)
             ++ [outgoing w token "GET" totals None (Some ∅)]).
Proof.
  repeat apply conj;
    rewrite ?consumption_params_lookup, ?stats_params_lookup;
    try reflexivity.
  intros w r token Hrow Hact Hdec sent listing totals. subst sent.
  unfold get_account_consumption, get_user_consumption_stats.
  repeat apply conj;
    rewrite (proxy_request_sent w user_id r token _ _ _ _ Hrow Hact Hdec);
    cbn [snd log with_log]; rewrite outbound_calls_app; reflexivity.
Qed.

(** C10 in the small world: user 1 asks for the consumption list with
    [limit=0], [offset=0] and an empty [start_date]; the one request sent
    has [params = {limit: 0, offset: 0}]. *)
Lemma integers_by_presence_dates_by_truth_witness :
  let w := demo_world unreachable unreachable_stream in
  params <$> outbound_calls
    (log (snd (get_account_consumption 1 "acc" (Some 0) (Some 0)
                 (Some EmptyString) None w)))
  = [Some {[ "limit"%string := JInt 0; "offset"%string := JInt 0 ]}].
Proof.
  intros w.
  destruct (integers_by_presence_dates_by_truth (Some 0) (Some 0)
              (Some EmptyString) None 0 Ascii.zero EmptyString 1 "acc")
    as (_ & _ & _ & _ & _ & _ & _ & _ & _ & _ & _ & _ & _ & Hsent).
  destruct (Hsent w {| api_key := "k1-sealed"; is_active := true |}
              "plain:k1-sealed" eq_refl eq_refl eq_refl)
    as (Hlist & _).
  cbv zeta in Hlist. rewrite Hlist. reflexivity.
Defined.

(** ** C4, C6, C3: what comes back from one request *)

(** C4.  When the plugin API answers a single-response call, and every
    method of the catalogue is such a call ([invoke_shape]), the request has
    been sent once and only once; an answer whose status is not a success
    (not in 200..299) makes the call raise [HTTPStatusError] with that status
    and that body, and an answer with a success status makes it return the
    document [response.json()] gives. *)
Theorem upstream_status_is_relayed (w : World) (user_id : Z) (r : PluginAPIKey)
    (token meth path : string) (json_data : option Json)
    (query : option (gmap string Json)) (response : Response) :
  plugin_api_keys w !! user_id = Some r ->
  is_active r = true ->
  decrypt_api_key w (api_key r) = Ok token ->
  let req := outgoing w token meth path json_data query in
  upstream w req = Ok response ->
  let w' := with_log w (log w ++ [EvLookup user_id; EvDecrypt (api_key r);
                                  EvClientOpen; EvRequest req; EvClientClose]) in
  (is_success (status_code response) = false ->
     _proxy_request user_id meth path json_data query w
     = (Raise (HTTPStatusError (status_code response) (Some (content response))),
        w'))
  /\ (forall doc,
        is_success (status_code response) = true ->
        json_doc response = Some doc ->
        _proxy_request user_id meth path json_data query w = (Ok doc, w'))
  /\ outbound_calls (log w') = outbound_calls (log w) ++ [req].
Proof.
  intros Hrow Hact Hdec req Hup w'.
  pose proof (proxy_request_sent w user_id r token meth path json_data query
                Hrow Hact Hdec) as Hrun.
  cbv zeta in Hrun. fold req in Hrun. fold w' in Hrun.
  rewrite Hup in Hrun. cbn [relayed] in Hrun.
  repeat apply conj.
  - intros Hst. rewrite Hrun, Hst. reflexivity.
  - intros doc Hst Hdoc. rewrite Hrun, Hst, Hdoc. reflexivity.
  - subst w'. cbn [log with_log]. rewrite outbound_calls_app. reflexivity.
Qed.

(** C4 at [get_account] when the plugin API answers 404 with the body
    [{"error":"not found"}]. *)
Lemma upstream_status_is_relayed_witness :
  let w := demo_world (answering 404 not_found_body (Some not_found_doc))
             unreachable_stream in
  is_success 404 = false
  /\ fst (get_account 1 "acc-9" w)
     = Raise (HTTPStatusError 404 (Some not_found_body))
  /\ length (outbound_calls (log (snd (get_account 1 "acc-9" w)))) = 1%nat.
Proof.
  intros w. split; [reflexivity|].
  destruct (upstream_status_is_relayed w 1
              {| api_key := "k1-sealed"; is_active := true |}
              "plain:k1-sealed" "GET" ("/api/kiro/accounts/" +:+ "acc-9")
              None None
              {| status_code := 404; content := not_found_body;
                 json_doc := Some not_found_doc |}
              eq_refl eq_refl eq_refl eq_refl)
    as (Hfail & _ & _).
  unfold get_account. rewrite (Hfail eq_refl). split; reflexivity.
Defined.

(** C6.  The body the caller passes to [chat_completions] is the [json]
    of the one request sent, and the document of a successful answer is
    what the caller gets. *)
Theorem chat_completions_round_trip (w : World) (user_id : Z)
    (r : PluginAPIKey) (token : string) (request_data doc : Json)
    (response : Response) :
  plugin_api_keys w !! user_id = Some r ->
  is_active r = true ->
  decrypt_api_key w (api_key r) = Ok token ->
  let req := outgoing w token "POST" "/v1/kiro/chat/completions"
               (Some request_data) None in
  upstream w req = Ok response ->
  is_success (status_code response) = true ->
  json_doc response = Some doc ->
  fst (chat_completions user_id request_data w) = Ok doc
  /\ outbound_calls (log (snd (chat_completions user_id request_data w)))
     = outbound_calls (log w) ++ [req]
  /\ json req = Some request_data.
Proof.
  intros Hrow Hact Hdec req Hup Hst Hdoc. unfold chat_completions.
  rewrite (proxy_request_sent w user_id r token _ _ _ _ Hrow Hact Hdec).
  fold req. rewrite Hup. cbn [relayed fst snd log with_log].
  rewrite Hst, Hdoc, outbound_calls_app. repeat apply conj; reflexivity.
Qed.

(** C6 in the small world: the body [{"model": "m"}] goes out, the answer
    [{"id": 5}] comes back. *)
Lemma chat_completions_round_trip_witness :
  let body := JDict [("model"%string, JStr "m")] in
  let answer := JDict [("id"%string, JInt 5)] in
  let w := demo_world (answering 200 [] (Some answer)) unreachable_stream in
  fst (chat_completions 1 body w) = Ok answer
  /\ json <$> outbound_calls (log (snd (chat_completions 1 body w)))
     = [Some body].
Proof.
  intros body answer w.
  destruct (chat_completions_round_trip w 1
              {| api_key := "k1-sealed"; is_active := true |}
              "plain:k1-sealed" body answer
              {| status_code := 200; content := []; json_doc := Some answer |}
              eq_refl eq_refl eq_refl eq_refl eq_refl eq_refl)
    as (Hback & Hsent & _).
  split; [exact Hback|]. rewrite Hsent. reflexivity.
Defined.

(** C3 as it is written fails: no catalogue is what [get_models] returns to
    every user with a usable key, because two plugin APIs that answer
    differently make it return different documents. *)
Lemma get_models_is_not_a_fixed_catalogue :
  ~ exists catalogue : Json,
      forall (w : World) (user_id : Z) (r : PluginAPIKey) (token : string),
        plugin_api_keys w !! user_id = Some r ->
        is_active r = true ->
        decrypt_api_key w (api_key r) = Ok token ->
        fst (get_models user_id w) = Ok catalogue.
Proof.
  intros [catalogue Hfixed].
  pose proof (Hfixed (demo_world (answering 200 [] (Some (JList [])))
                        unreachable_stream)
                1 _ _ eq_refl eq_refl eq_refl) as Hone.
  pose proof (Hfixed (demo_world (answering 200 [] (Some JNull))
                        unreachable_stream)
                1 _ _ eq_refl eq_refl eq_refl) as Htwo.
  vm_compute in Hone, Htwo. congruence.
Qed.

(** C3, amended.  [get_models] asks the plugin API and nothing else.  For a
    user with a usable key it sends one [GET] to
    [base_url + "/v1/kiro/models"], and what the caller gets is decided by
    the answer alone: the document of a successful answer, unchanged;
    [HTTPStatusError] for an error status; the exception of the transport
    when the request fails; the decoding error for a body that is no JSON.
    So a document it returns is always the document of a successful answer,
    never a list of its own.  [SUPPORTED_MODELS] is a list of five names
    that the method does not read: with a plugin API that does not answer the
    call fails, and with one that answers with another list the call returns
    that list. *)
Theorem get_models_relays_the_upstream_catalogue (w : World) (user_id : Z)
    (r : PluginAPIKey) (token : string) :
  plugin_api_keys w !! user_id = Some r ->
  is_active r = true ->
  decrypt_api_key w (api_key r) = Ok token ->
  let req := outgoing w token "GET" "/v1/kiro/models" None None in
  let w' := with_log w (log w ++ [EvLookup user_id; EvDecrypt (api_key r);
                                  EvClientOpen; EvRequest req; EvClientClose]) in
  get_models user_id w = (relayed (upstream w req), w')
  /\ outbound_calls (log w') = outbound_calls (log w) ++ [req]
  /\ (forall response doc,
        upstream w req = Ok response ->
        is_success (status_code response) = true ->
        json_doc response = Some doc ->
        fst (get_models user_id w) = Ok doc)
  /\ (forall response,
        upstream w req = Ok response ->
        is_success (status_code response) = false ->
        fst (get_models user_id w)
        = Raise (HTTPStatusError (status_code response)
                   (Some (content response))))
  /\ (forall response,
        upstream w req = Ok response ->
        is_success (status_code response) = true ->
        json_doc response = None ->
        fst (get_models user_id w) = Raise JSONDecodeError)
  /\ (forall e,
        upstream w req = Raise e ->
        fst (get_models user_id w) = Raise e)
  /\ (forall doc,
        fst (get_models user_id w) = Ok doc ->
        exists response,
          upstream w req = Ok response
          /\ is_success (status_code response) = true
          /\ json_doc response = Some doc)
  /\ length SUPPORTED_MODELS = 5%nat.
Proof.
  intros Hrow Hact Hdec req w'.
  assert (Hrun : get_models user_id w = (relayed (upstream w req), w')).
  { unfold get_models.
    apply (proxy_request_sent w user_id r token "GET" "/v1/kiro/models"
             None None Hrow Hact Hdec). }
  repeat apply conj.
  - exact Hrun.
  - subst w'. cbn [log with_log]. rewrite outbound_calls_app. reflexivity.
  - intros response doc Hup Hst Hdoc. rewrite Hrun. cbn [fst].
    rewrite Hup. cbn [relayed]. rewrite Hst, Hdoc. reflexivity.
  - intros response Hup Hst. rewrite Hrun. cbn [fst].
    rewrite Hup. cbn [relayed]. rewrite Hst. reflexivity.
  - intros response Hup Hst Hdoc. rewrite Hrun. cbn [fst].
    rewrite Hup. cbn [relayed]. rewrite Hst, Hdoc. reflexivity.
  - intros e Hup. rewrite Hrun. cbn [fst]. rewrite Hup. reflexivity.
  - intros doc. rewrite Hrun. cbn [fst]. unfold relayed.
    destruct (upstream w req) as [response|e]; [|discriminate].
    destruct (is_success (status_code response)) eqn:Hst; [|discriminate].
    destruct (json_doc response) as [doc'|] eqn:Hdoc; [|discriminate].
    intros [= <-]. exists response. repeat apply conj; reflexivity || assumption.
  - reflexivity.
Qed.

(** The amended C3 in the small world: a plugin API that lists one model
    only makes [get_models] return that list, and one that cannot be
    reached makes it fail; neither result is [SUPPORTED_MODELS]. *)
Lemma get_models_relays_the_upstream_catalogue_witness :
  let answer := JDict [("data"%string, JList [JStr "some-model"])] in
  let w := demo_world (answering 200 [] (Some answer)) unreachable_stream in
  let w0 := demo_world unreachable unreachable_stream in
  fst (get_models 1 w) = Ok answer
  /\ fst (get_models 1 w0) = Raise (TransportError "connection refused").
Proof.
  intros answer w w0.
  destruct (get_models_relays_the_upstream_catalogue w 1
              {| api_key := "k1-sealed"; is_active := true |}
              "plain:k1-sealed" eq_refl eq_refl eq_refl)
    as (_ & _ & Hgood & _).
  destruct (get_models_relays_the_upstream_catalogue w0 1
              {| api_key := "k1-sealed"; is_active := true |}
              "plain:k1-sealed" eq_refl eq_refl eq_refl)
    as (_ & _ & _ & _ & _ & Hdown & _).
  split.
  - apply (Hgood {| status_code := 200; content := [];
                    json_doc := Some answer |} answer eq_refl eq_refl eq_refl).
  - apply (Hdown (TransportError "connection refused") eq_refl).
Defined.

(** ** C7, C5: what a consumer of the stream sees *)

(** C7.  When the streamed response comes with a status that is not a
    success, the first [__anext__] raises [HTTPStatusError] with that status:
    a consumer has seen no chunk, whatever the number of times it is ready to
    ask, nothing was read from the body, and the generator is finished.  The
    same holds through [chat_completions_stream]. *)
Theorem bad_status_fails_before_any_chunk (w : World) (user_id : Z)
    (r : PluginAPIKey) (token meth path : string) (json_data : option Json)
    (response : StreamResponse) (pulls : nat) :
  plugin_api_keys w !! user_id = Some r ->
  is_active r = true ->
  decrypt_api_key w (api_key r) = Ok token ->
  let req := outgoing w token meth path json_data None in
  upstream_stream w req = Ok response ->
  is_success (stream_status response) = false ->
  let w' := with_log w (log w ++ opening user_id r req
                              ++ [EvStreamClose; EvClientClose]) in
  let e := HTTPStatusError (stream_status response) None in
  anext (_proxy_stream_request user_id meth path json_data) w
  = (Raised e, GenClosed, w')
  /\ consume anext (S pulls) (_proxy_stream_request user_id meth path json_data) w
     = ([], Failed e, GenClosed, w')
  /\ (forall request_data,
        meth = "POST"%string -> path = "/v1/kiro/chat/completions"%string ->
        json_data = Some request_data ->
        consume chat_anext (S pulls)
          (chat_completions_stream user_id request_data) w
        = ([], Failed e, ChatClosed, w')).
Proof.
  intros Hrow Hact Hdec req Hup Hst w' e.
  pose proof (anext_bad_status w user_id r token meth path json_data
                Hrow Hact Hdec response Hup Hst) as Hfirst.
  fold req in Hfirst. fold w' in Hfirst. fold e in Hfirst.
  repeat apply conj.
  - exact Hfirst.
  - rewrite consume_step, Hfirst. reflexivity.
  - intros request_data -> -> ->.
    rewrite consume_chat_created, consume_step, Hfirst. reflexivity.
Qed.

(** C7 in the small world: a 503 on the streaming chat completion. *)
Lemma bad_status_fails_before_any_chunk_witness :
  let w := demo_world unreachable (streaming 503 abc None) in
  is_success 503 = false
  /\ fst (fst (fst (consume chat_anext 4
                      (chat_completions_stream 1 (JDict [])) w)))
     = []
  /\ snd (fst (fst (consume chat_anext 4
                      (chat_completions_stream 1 (JDict [])) w)))
     = Failed (HTTPStatusError 503 None).
Proof.
  intros w. split; [reflexivity|].
  destruct (bad_status_fails_before_any_chunk w 1
              {| api_key := "k1-sealed"; is_active := true |}
              "plain:k1-sealed" "POST" "/v1/kiro/chat/completions"
              (Some (JDict []))
              {| stream_status := 503; stream_chunks := abc;
                 stream_failure := None |}
              3 eq_refl eq_refl eq_refl eq_refl eq_refl)
    as (_ & _ & Hchat).
  rewrite (Hchat (JDict []) eq_refl eq_refl eq_refl). split; reflexivity.
Defined.

(** C5.  A streaming chat completion whose response has a success status
    and a body of finitely many chunks that ends without failure:
    - a consumer that asks more often than there are chunks sees exactly
      those chunks, in their order, then the end of the sequence;
    - lazily: a consumer that has asked [pulls] times, at most as often as
      there are chunks, has seen the first [pulls] chunks and exactly
      [pulls] reads of the body have happened;
    - one pass: asking the finished generator again gives no chunk and
      does nothing. *)
Theorem stream_chunks_pass_through (w : World) (user_id : Z)
    (r : PluginAPIKey) (token : string) (request_data : Json)
    (response : StreamResponse) :
  plugin_api_keys w !! user_id = Some r ->
  is_active r = true ->
  decrypt_api_key w (api_key r) = Ok token ->
  let req := outgoing w token "POST" "/v1/kiro/chat/completions"
               (Some request_data) None in
  upstream_stream w req = Ok response ->
  is_success (stream_status response) = true ->
  stream_failure response = None ->
  let chunks := stream_chunks response in
  let opened := log w ++ opening user_id r req in
  let w_end := with_log w (opened ++ replicate (S (length chunks)) EvStreamRead
                                  ++ [EvStreamClose; EvClientClose]) in
  (forall extra,
     consume chat_anext (S (length chunks) + extra)
       (chat_completions_stream user_id request_data) w
     = (chunks, Exhausted, ChatClosed, w_end))
  /\ (forall pulls,
        (pulls <= length chunks)%nat ->
        consume chat_anext (S pulls)
          (chat_completions_stream user_id request_data) w
        = (take (S pulls) chunks,
           if decide (pulls = length chunks) then Exhausted else Pending,
           if decide (pulls = length chunks) then ChatClosed
           else ChatSuspended (GenSuspended (drop (S pulls) chunks) None),
           if decide (pulls = length chunks) then w_end
           else with_log w (opened ++ replicate (S pulls) EvStreamRead)))
  /\ (forall again,
        consume chat_anext (S again) ChatClosed w_end
        = ([], Exhausted, ChatClosed, w_end)).
Proof.
  intros Hrow Hact Hdec req Hup Hst Hfail chunks opened w_end.
  assert (Hall : forall extra,
     consume chat_anext (S (length chunks) + extra)
       (chat_completions_stream user_id request_data) w
     = (chunks, Exhausted, ChatClosed, w_end)).
  { intros extra. cbn [Nat.add]. rewrite consume_chat_created.
    rewrite (consume_entered w user_id r token _ _ _ response _
               Hrow Hact Hdec Hup Hst).
    fold req. fold chunks. rewrite Hfail.
    change (S (length chunks + extra)) with (S (length chunks) + extra)%nat.
    rewrite consume_to_the_end. subst w_end opened. tidy_log.
    reflexivity. }
  repeat apply conj.
  - exact Hall.
  - intros pulls Hle. case_decide as Heq.
    + subst pulls. rewrite take_ge by lia.
      pose proof (Hall 0%nat) as Hzero. rewrite Nat.add_0_r in Hzero.
      exact Hzero.
    + rewrite consume_chat_created.
      rewrite (consume_entered w user_id r token _ _ _ response _
                 Hrow Hact Hdec Hup Hst).
      fold req. fold chunks. rewrite Hfail.
      rewrite consume_some by lia. subst opened. tidy_log. reflexivity.
  - intros again. reflexivity.
Qed.

(** C5 in the small world: the chunks [b"a"], [b"b"], [b"c"] and then the
    end; after two pulls, two chunks and two reads. *)
Lemma stream_chunks_pass_through_witness :
  let w := demo_world unreachable (streaming 200 abc None) in
  let body := JDict [("stream"%string, JBool true)] in
  fst (fst (consume chat_anext 4 (chat_completions_stream 1 body) w))
  = (abc, Exhausted)
  /\ fst (fst (consume chat_anext 2 (chat_completions_stream 1 body) w))
     = ([[Byte.x61]; [Byte.x62]], Pending)
  /\ reads (log (snd (consume chat_anext 2
                            (chat_completions_stream 1 body) w)))
     = 2%nat.
Proof.
  intros w body.
  destruct (stream_chunks_pass_through w 1
              {| api_key := "k1-sealed"; is_active := true |}
              "plain:k1-sealed" body
              {| stream_status := 200; stream_chunks := abc;
                 stream_failure := None |}
              eq_refl eq_refl eq_refl eq_refl eq_refl eq_refl)
    as (Hall & Hlazy & _).
  assert (Hle : (1 <= 3)%nat) by lia.
  split; [|split].
  - rewrite (Hall 0%nat
             : consume chat_anext 4 (chat_completions_stream 1 body) w = _).
    reflexivity.
  - rewrite (Hlazy 1%nat Hle
             : consume chat_anext 2 (chat_completions_stream 1 body) w = _).
    reflexivity.
  - rewrite (Hlazy 1%nat Hle
             : consume chat_anext 2 (chat_completions_stream 1 body) w = _).
    reflexivity.
Defined.

(** ** C9: the connection is released *)

Lemma held_app (l l' : list Event) : held (l ++ l') = held l + held l'.
Proof.
  induction l as [|e l IH]; [reflexivity|].
  cbn [app]. unfold held in *. cbn [foldr]. destruct e; lia.
Qed.

Lemma clients_app (l l' : list Event) :
  clients (l ++ l') = clients l + clients l'.
Proof.
  induction l as [|e l IH]; [reflexivity|].
  cbn [app]. unfold clients in *. cbn [foldr]. destruct e; lia.
Qed.

Ltac account :=
  unfold accounted; tidy_log; rewrite ?held_app, ?clients_app;
  cbn [held clients foldr parked]; lia.

Lemma next_chunk_accounted (rest : list bytes) (failure : option Exc)
    (w : World) :
  accounted (GenSuspended rest failure) w
    (snd (fst (anext (GenSuspended rest failure) w)))
    (snd (anext (GenSuspended rest failure) w)).
Proof.
  destruct rest as [|chunk rest].
  - destruct failure as [e|]; [rewrite anext_broken|rewrite anext_end]; account.
  - rewrite anext_chunk. account.
Qed.

Lemma anext_accounted (g : AsyncGen) (w : World) :
  accounted g w (snd (fst (anext g w))) (snd (anext g w)).
Proof.
  destruct g as [user_id meth path json_data|rest failure|].
  - change (anext (GenCreated user_id meth path json_data) w)
      with (anext (_proxy_stream_request user_id meth path json_data) w).
    destruct (plugin_api_keys w !! user_id) as [r|] eqn:Hrow.
    2:{ rewrite anext_unconfigured by (unfold no_active_key; rewrite Hrow; exact I).
        account. }
    destruct (is_active r) eqn:Hact.
    2:{ rewrite anext_unconfigured
          by (unfold no_active_key; rewrite Hrow; exact Hact).
        account. }
    destruct (decrypt_api_key w (api_key r)) as [token|e] eqn:Hdec.
    2:{ rewrite (anext_decrypt_failed w user_id r meth path json_data e
                   Hrow Hact Hdec).
        account. }
    destruct (upstream_stream w (outgoing w token meth path json_data None))
      as [response|e] eqn:Hup.
    2:{ rewrite (anext_connect_failed w user_id r token meth path json_data
                   Hrow Hact Hdec e Hup).
        account. }
    destruct (is_success (stream_status response)) eqn:Hst.
    + rewrite (anext_entered w user_id r token meth path json_data
                 Hrow Hact Hdec response Hup Hst).
      pose proof (next_chunk_accounted (stream_chunks response)
                    (stream_failure response)
                    (with_log w (log w ++ opening user_id r
                       (outgoing w token meth path json_data None)))) as Hnext.
      unfold accounted in *. revert Hnext. tidy_log.
      rewrite ?held_app, ?clients_app. cbn [held clients foldr parked opening].
      lia.
    + rewrite (anext_bad_status w user_id r token meth path json_data
                 Hrow Hact Hdec response Hup Hst).
      unfold opening. account.
  - apply next_chunk_accounted.
  - rewrite anext_closed. account.
Qed.

Lemma aclose_accounted (g : AsyncGen) (w : World) :
  accounted g w (fst (aclose g w)) (snd (aclose g w)).
Proof.
  destruct g; unfold aclose, leave_stream_and_client, bind, emit; account.
Qed.

Lemma run_accounted (ops : list Op) (g : AsyncGen) (w : World) :
  accounted g w (fst (run ops g w)) (snd (run ops g w)).
Proof.
  revert g w. induction ops as [|op ops IH]; intros g w.
  - cbn [run fst snd]. unfold accounted. lia.
  - cbn [run].
    specialize (IH (fst (apply_op op g w)) (snd (apply_op op g w))).
    assert (Hop : accounted g w (fst (apply_op op g w)) (snd (apply_op op g w))).
    { destruct op; cbn [apply_op fst snd];
        [apply anext_accounted|apply aclose_accounted]. }
    unfold accounted in *. lia.
Qed.

Lemma anext_finishes (g : AsyncGen) (w : World) :
  match fst (fst (anext g w)) with
  | Yield _ => True
  | _ => snd (fst (anext g w)) = GenClosed
  end.
Proof.
  unfold anext.
  destruct (resume g w) as [[[[chunk|] g']|e] w']; cbn; trivial.
Qed.

Lemma aclose_finishes (g : AsyncGen) (w : World) : fst (aclose g w) = GenClosed.
Proof. destruct g; reflexivity. Qed.

(** C9.  Take a streaming proxy call and let the consumer do anything with
    its generator ([ops]: any sequence of [__anext__] and [aclose]).  Where
    that leaves the generator, one streamed response and one client are held
    exactly when the frame is parked at its [yield]; and each way out
    releases them, counted against the log the call started from:
    - asking again and getting the end of the sequence (normal exhaustion),
    - asking again and getting an exception (a failure in the middle of the
      stream, or any other),
    - abandoning the generator ([aclose]).
    After each of them the generator is finished. *)
Theorem stream_connection_is_released (w : World) (user_id : Z)
    (meth path : string) (json_data : option Json) (ops : list Op) :
  let g := fst (run ops (_proxy_stream_request user_id meth path json_data) w) in
  let w1 := snd (run ops (_proxy_stream_request user_id meth path json_data) w) in
  let released (w' : World) : Prop :=
    held (log w') = held (log w) /\ clients (log w') = clients (log w) in
  (held (log w1) = held (log w) + parked g
   /\ clients (log w1) = clients (log w) + parked g)
  /\ match fst (fst (anext g w1)) with
     | Yield _ => True
     | StopAsyncIteration =>
         snd (fst (anext g w1)) = GenClosed /\ released (snd (anext g w1))
     | Raised _ =>
         snd (fst (anext g w1)) = GenClosed /\ released (snd (anext g w1))
     end
  /\ fst (aclose g w1) = GenClosed
  /\ released (snd (aclose g w1)).
Proof.
  intros g w1 released.
  pose proof (run_accounted ops
                (_proxy_stream_request user_id meth path json_data) w) as Hrun.
  fold g w1 in Hrun.
  pose proof (anext_accounted g w1) as Hnext.
  pose proof (anext_finishes g w1) as Hfin.
  pose proof (aclose_accounted g w1) as Hclose.
  pose proof (aclose_finishes g w1) as Hcf.
  unfold accounted, released in *. rewrite Hcf in Hclose.
  change (parked (_proxy_stream_request user_id meth path json_data))
    with 0 in Hrun.
  change (parked GenClosed) with 0 in Hclose.
  repeat apply conj; try lia; try exact Hcf.
  destruct (fst (fst (anext g w1))); [exact I| |];
    rewrite Hfin in Hnext |- *; change (parked GenClosed) with 0 in Hnext;
    (split; [reflexivity|lia]).
Qed.

(** C9 in the small world.  A consumer that takes two of three chunks and
    abandons the generator, and one whose stream breaks after a chunk: in
    both logs the response and the client are closed. *)
Lemma stream_connection_is_released_witness :
  let gen := _proxy_stream_request 1 "POST" "/v1/kiro/chat/completions" None in
  let w := demo_world unreachable (streaming 200 abc None) in
  let wb := demo_world unreachable broken_after_a in
  held (log (snd (run [Next; Next; Close] gen w))) = 0
  /\ drop 5 (log (snd (run [Next; Next; Close] gen w)))
     = [EvStreamRead; EvStreamRead; EvStreamClose; EvClientClose]
  /\ held (log (snd (run [Next; Next] gen wb))) = 0
  /\ drop 5 (log (snd (run [Next; Next] gen wb)))
     = [EvStreamRead; EvStreamRead; EvStreamClose; EvClientClose].
Proof.
  intros gen w wb.
  pose proof (stream_connection_is_released w 1 "POST"
                "/v1/kiro/chat/completions" None [Next; Next])
    as (_ & _ & _ & Habandon & _).
  pose proof (stream_connection_is_released wb 1 "POST"
                "/v1/kiro/chat/completions" None [Next])
    as (_ & Hbreak & _).
  repeat apply conj.
  - exact Habandon.
  - reflexivity.
  - apply Hbreak.
  - reflexivity.
Defined.

(** ** C8: nothing is kept between calls *)

Lemma only_logged_self (w w' : World) : only_logged w w' -> self w' = self w.
Proof. intros [events ->]. reflexivity. Qed.

Lemma proxy_request_decrypt_failed (w : World) (user_id : Z) (r : PluginAPIKey)
    (meth path : string) (json_data : option Json)
    (query : option (gmap string Json)) (e : Exc) :
  plugin_api_keys w !! user_id = Some r ->
  is_active r = true ->
  decrypt_api_key w (api_key r) = Raise e ->
  _proxy_request user_id meth path json_data query w
  = (Raise e, with_log w (log w ++ [EvLookup user_id; EvDecrypt (api_key r)])).
Proof.
  intros Hrow Hact Hdec. unfold _proxy_request. unfold bind at 1.
  rewrite (get_key_configured _ _ _ Hrow Hact), Hdec. reflexivity.
Qed.

(** Every run of [_proxy_request] starts by looking the key up, decrypts it
    when it is usable, and changes nothing but the log. *)
Lemma proxy_request_trace (w : World) (user_id : Z) (meth path : string)
    (json_data : option Json) (query : option (gmap string Json)) :
  exists events,
    snd (_proxy_request user_id meth path json_data query w)
    = with_log w (log w ++ EvLookup user_id :: events)
    /\ forall r, plugin_api_keys w !! user_id = Some r -> is_active r = true ->
                 exists events', events = EvDecrypt (api_key r) :: events'.
Proof.
  destruct (plugin_api_keys w !! user_id) as [r|] eqn:Hrow.
  2:{ rewrite proxy_request_unconfigured
        by (unfold no_active_key; rewrite Hrow; exact I).
      exists []. split; [reflexivity|]. intros r Hr. discriminate. }
  destruct (is_active r) eqn:Hact.
  2:{ rewrite proxy_request_unconfigured
        by (unfold no_active_key; rewrite Hrow; exact Hact).
      exists []. split; [reflexivity|]. intros r' Hr' Hact'.
      injection Hr' as <-. congruence. }
  destruct (decrypt_api_key w (api_key r)) as [token|e] eqn:Hdec.
  - rewrite (proxy_request_sent w user_id r token meth path json_data query
               Hrow Hact Hdec).
    eexists. split; [reflexivity|]. intros r' Hr' _. injection Hr' as <-.
    eexists. reflexivity.
  - rewrite (proxy_request_decrypt_failed w user_id r meth path json_data
               query e Hrow Hact Hdec).
    eexists. split; [reflexivity|]. intros r' Hr' _. injection Hr' as <-.
    eexists. reflexivity.
Qed.

Lemma invoke_trace (c : Call) (w : World) (user_id : Z) :
  exists events,
    snd (invoke c user_id w) = with_log w (log w ++ EvLookup user_id :: events)
    /\ forall r, plugin_api_keys w !! user_id = Some r -> is_active r = true ->
                 exists events', events = EvDecrypt (api_key r) :: events'.
Proof.
  rewrite invoke_shape. destruct (shape c) as [[[meth path] json_data] query].
  apply proxy_request_trace.
Qed.

Lemma next_chunk_only_logged (rest : list bytes) (failure : option Exc)
    (w : World) :
  only_logged w (snd (anext (GenSuspended rest failure) w)).
Proof.
  destruct rest as [|chunk rest].
  - destruct failure as [e|]; [rewrite anext_broken|rewrite anext_end];
      eexists; reflexivity.
  - rewrite anext_chunk. eexists. reflexivity.
Qed.

(** The first [__anext__] of a streaming call, likewise. *)
Lemma first_anext_trace (w : World) (user_id : Z) (meth path : string)
    (json_data : option Json) :
  exists events,
    snd (anext (_proxy_stream_request user_id meth path json_data) w)
    = with_log w (log w ++ EvLookup user_id :: events)
    /\ forall r, plugin_api_keys w !! user_id = Some r -> is_active r = true ->
                 exists events', events = EvDecrypt (api_key r) :: events'.
Proof.
  destruct (plugin_api_keys w !! user_id) as [r|] eqn:Hrow.
  2:{ rewrite anext_unconfigured
        by (unfold no_active_key; rewrite Hrow; exact I).
      exists []. split; [reflexivity|]. intros r Hr. discriminate. }
  destruct (is_active r) eqn:Hact.
  2:{ rewrite anext_unconfigured
        by (unfold no_active_key; rewrite Hrow; exact Hact).
      exists []. split; [reflexivity|]. intros r' Hr' Hact'.
      injection Hr' as <-. congruence. }
  assert (Hsame : forall events' (r' : PluginAPIKey),
             Some r = Some r' ->
             exists events'',
               EvDecrypt (api_key r) :: events'
               = EvDecrypt (api_key r') :: events'').
  { intros events' r' Hr'. injection Hr' as <-. eexists. reflexivity. }
  destruct (decrypt_api_key w (api_key r)) as [token|e] eqn:Hdec.
  2:{ rewrite (anext_decrypt_failed w user_id r meth path json_data e
                 Hrow Hact Hdec).
      eexists. split; [reflexivity|]. intros r' Hr' _. apply Hsame, Hr'. }
  destruct (upstream_stream w (outgoing w token meth path json_data None))
    as [response|e] eqn:Hup.
  2:{ rewrite (anext_connect_failed w user_id r token meth path json_data
                 Hrow Hact Hdec e Hup).
      eexists. split; [reflexivity|]. intros r' Hr' _. apply Hsame, Hr'. }
  destruct (is_success (stream_status response)) eqn:Hst.
  - rewrite (anext_entered w user_id r token meth path json_data
               Hrow Hact Hdec response Hup Hst).
    destruct (next_chunk_only_logged (stream_chunks response)
                (stream_failure response)
                (with_log w (log w ++ opening user_id r
                   (outgoing w token meth path json_data None))))
      as [events ->].
    unfold opening. tidy_log.
    eexists. split; [reflexivity|]. intros r' Hr' _. apply Hsame, Hr'.
  - rewrite (anext_bad_status w user_id r token meth path json_data
               Hrow Hact Hdec response Hup Hst).
    unfold opening. tidy_log.
    eexists. split; [reflexivity|]. intros r' Hr' _. apply Hsame, Hr'.
Qed.

Lemma anext_only_logged (g : AsyncGen) (w : World) :
  only_logged w (snd (anext g w)).
Proof.
  destruct g as [user_id meth path json_data|rest failure|].
  - destruct (first_anext_trace w user_id meth path json_data)
      as (events & Hw & _).
    exists (EvLookup user_id :: events). exact Hw.
  - apply next_chunk_only_logged.
  - exists []. rewrite anext_closed, app_nil_r, with_log_same. reflexivity.
Qed.

Lemma aclose_only_logged (g : AsyncGen) (w : World) :
  only_logged w (snd (aclose g w)).
Proof.
  destruct g; cbn [aclose snd].
  - exists []. rewrite app_nil_r, with_log_same. reflexivity.
  - unfold leave_stream_and_client, bind, emit. tidy_log.
    eexists. reflexivity.
  - exists []. rewrite app_nil_r, with_log_same. reflexivity.
Qed.

Lemma forward_world (inner : AsyncGen) (w : World) :
  snd (forward inner w) = snd (anext inner w).
Proof.
  unfold forward. destruct (anext inner w) as [[[chunk| |e] inner'] w'];
    reflexivity.
Qed.

Lemma chat_anext_only_logged (g : ChatStream) (w : World) :
  only_logged w (snd (chat_anext g w)).
Proof.
  destruct g as [user_id request_data|inner|]; cbn [chat_anext].
  - rewrite forward_world. apply anext_only_logged.
  - rewrite forward_world. apply anext_only_logged.
  - exists []. cbn [snd]. rewrite app_nil_r, with_log_same. reflexivity.
Qed.

(** C8.  No call writes the service object: after any method of the
    catalogue, any [__anext__] or [aclose] of the streaming proxy's generator
    and any [__anext__] of the streaming chat completion, whether it returned
    or raised, [self] (its [db], [settings], [plugin_api_key_repo] and
    [base_url]) is what it was.  And no key is kept from one call to the
    next: every call begins by looking the user's row up and, when the row
    is usable, by decrypting its key; a second call does so again; and a call
    made after the row was removed fails as for a user who never had one,
    whatever call came before. *)
Theorem service_object_is_never_written (w : World) (user_id : Z) :
  (forall c, self (snd (invoke c user_id w)) = self w)
  /\ (forall g, self (snd (anext g w)) = self w
                /\ self (snd (aclose g w)) = self w)
  /\ (forall g, self (snd (chat_anext g w)) = self w)
  /\ (forall c, exists events,
        log (snd (invoke c user_id w)) = log w ++ EvLookup user_id :: events
        /\ forall r, plugin_api_keys w !! user_id = Some r ->
                     is_active r = true ->
                     exists events', events = EvDecrypt (api_key r) :: events')
  /\ (forall request_data, exists events,
        log (snd (chat_anext (chat_completions_stream user_id request_data) w))
        = log w ++ EvLookup user_id :: events
        /\ forall r, plugin_api_keys w !! user_id = Some r ->
                     is_active r = true ->
                     exists events', events = EvDecrypt (api_key r) :: events')
  /\ (forall c1 c2, exists events,
        log (snd (invoke c2 user_id (snd (invoke c1 user_id w))))
        = log (snd (invoke c1 user_id w)) ++ EvLookup user_id :: events)
  /\ (forall c1 c2 keys,
        keys !! user_id = None ->
        fst (invoke c2 user_id (with_keys (snd (invoke c1 user_id w)) keys))
        = Raise not_configured).
Proof.
  repeat apply conj.
  - intros c. destruct (invoke_trace c w user_id) as (events & -> & _).
    reflexivity.
  - intros g. split; apply only_logged_self;
      [apply anext_only_logged|apply aclose_only_logged].
  - intros g. apply only_logged_self, chat_anext_only_logged.
  - intros c. destruct (invoke_trace c w user_id) as (events & -> & Hdec).
    exists events. split; [reflexivity|exact Hdec].
  - intros request_data. cbn [chat_anext chat_completions_stream].
    rewrite forward_world.
    destruct (first_anext_trace w user_id "POST" "/v1/kiro/chat/completions"
                (Some request_data)) as (events & -> & Hdec).
    exists events. split; [reflexivity|exact Hdec].
  - intros c1 c2.
    destruct (invoke_trace c2 (snd (invoke c1 user_id w)) user_id)
      as (events & -> & _).
    exists events. reflexivity.
  - intros c1 c2 keys Hnone. rewrite invoke_shape.
    destruct (shape c2) as [[[meth path] json_data] query].
    rewrite proxy_request_unconfigured; [reflexivity|].
    unfold no_active_key. cbn [plugin_api_keys with_keys]. rewrite Hnone.
    exact I.
Qed.

(** C8 in the small world: user 1 lists the accounts, the row is removed,
    user 1 asks again.  The first call succeeds, the second one fails, and
    the service object is still the one [__init__] built. *)
Lemma service_object_is_never_written_witness :
  let w := demo_world (answering 200 [] (Some (JList []))) unreachable_stream in
  let w1 := snd (invoke GetAccounts 1 w) in
  fst (invoke GetAccounts 1 w) = Ok (JList [])
  /\ self w1 = KiroService_init 7 {| plugin_api_base_url := "http://plugin" |}
  /\ fst (invoke GetModels 1 (with_keys w1 (delete 1 demo_keys)))
     = Raise not_configured.
Proof.
  intros w w1.
  pose proof (service_object_is_never_written w 1)
    as (Hself & _ & _ & _ & _ & _ & Hgone).
  repeat apply conj.
  - reflexivity.
  - apply (Hself GetAccounts).
  - apply (Hgone GetAccounts GetModels (delete 1 demo_keys)). reflexivity.
Defined.

(** * Further properties of the code *)

(** ** Every way through [_proxy_request] *)

(** The three ways a run of [_proxy_request] can go: the user has no usable
    key; the key does not decrypt; the request is sent. *)
Lemma proxy_request_log (w : World) (user_id : Z) (meth path : string)
    (json_data : option Json) (query : option (gmap string Json)) :
  (no_active_key w user_id
   /\ _proxy_request user_id meth path json_data query w
      = (Raise not_configured, with_log w (log w ++ [EvLookup user_id])))
  \/ (exists r e,
        plugin_api_keys w !! user_id = Some r /\ is_active r = true
        /\ decrypt_api_key w (api_key r) = Raise e
        /\ _proxy_request user_id meth path json_data query w
           = (Raise e,
              with_log w (log w ++ [EvLookup user_id; EvDecrypt (api_key r)])))
  \/ (exists r token,
        plugin_api_keys w !! user_id = Some r /\ is_active r = true
        /\ decrypt_api_key w (api_key r) = Ok token
        /\ _proxy_request user_id meth path json_data query w
           = (relayed (upstream w (outgoing w token meth path json_data query)),
              with_log w
                (log w ++ [EvLookup user_id; EvDecrypt (api_key r); EvClientOpen;
                           EvRequest (outgoing w token meth path json_data query);
                           EvClientClose]))).
Proof.
  destruct (plugin_api_keys w !! user_id) as [r|] eqn:Hrow.
  2:{ left. assert (Hno : no_active_key w user_id)
        by (unfold no_active_key; rewrite Hrow; exact I).
      split; [exact Hno|]. apply proxy_request_unconfigured, Hno. }
  destruct (is_active r) eqn:Hact.
  2:{ left. assert (Hno : no_active_key w user_id)
        by (unfold no_active_key; rewrite Hrow; exact Hact).
      split; [exact Hno|]. apply proxy_request_unconfigured, Hno. }
  destruct (decrypt_api_key w (api_key r)) as [token|e] eqn:Hdec.
  - right. right. exists r, token.
    repeat apply conj; try assumption; try reflexivity.
    apply (proxy_request_sent w user_id r token meth path json_data query
             Hrow Hact Hdec).
  - right. left. exists r, e.
    repeat apply conj; try assumption; try reflexivity.
    apply (proxy_request_decrypt_failed w user_id r meth path json_data query e
             Hrow Hact Hdec).
Qed.

(** X1.  When [decrypt_api_key] raises, the exception reaches the caller of
    every method of the catalogue and the consumer of either generator as
    it is, after the lookup and the attempt to decrypt and nothing else: no
    client is created and no request is sent. *)
Theorem decrypt_failure_is_passed_on (w : World) (user_id : Z)
    (r : PluginAPIKey) (e : Exc) :
  plugin_api_keys w !! user_id = Some r ->
  is_active r = true ->
  decrypt_api_key w (api_key r) = Raise e ->
  let w' := with_log w (log w ++ [EvLookup user_id; EvDecrypt (api_key r)]) in
  (forall c, invoke c user_id w = (Raise e, w'))
  /\ (forall meth path json_data,
        anext (_proxy_stream_request user_id meth path json_data) w
        = (Raised e, GenClosed, w'))
  /\ (forall request_data,
        chat_anext (chat_completions_stream user_id request_data) w
        = (Raised e, ChatClosed, w'))
  /\ outbound_calls (log w') = outbound_calls (log w)
  /\ clients (log w') = clients (log w).
Proof.
  intros Hrow Hact Hdec w'. repeat apply conj.
  - intros c. rewrite invoke_shape.
    destruct (shape c) as [[[meth path] json_data] query].
    apply (proxy_request_decrypt_failed w user_id r meth path json_data query e
             Hrow Hact Hdec).
  - intros meth path json_data.
    apply (anext_decrypt_failed w user_id r meth path json_data e Hrow Hact Hdec).
  - intros request_data. cbn [chat_anext chat_completions_stream].
    unfold forward.
    rewrite (anext_decrypt_failed w user_id r _ _ _ e Hrow Hact Hdec).
    reflexivity.
  - subst w'. cbn [log with_log]. rewrite outbound_calls_app. cbn.
    apply app_nil_r.
  - subst w'. cbn [log with_log]. rewrite clients_app. cbn. lia.
Qed.

(** X1 in the small world whose cipher rejects every key. *)
Lemma decrypt_failure_is_passed_on_witness :
  invoke (GetAccountBalance "acc-1") 1 demo_world_bad_cipher
  = (Raise (OtherError "InvalidToken"),
     with_log demo_world_bad_cipher [EvLookup 1; EvDecrypt "k1-sealed"]).
Proof.
  apply (decrypt_failure_is_passed_on demo_world_bad_cipher 1
           {| api_key := "k1-sealed"; is_active := true |}
           (OtherError "InvalidToken") eq_refl eq_refl eq_refl).
Defined.

(** X2.  When sending the request fails in the transport, [_proxy_request]
    raises that exception as it is; the request was attempted once, and the
    client that was opened for it has been closed. *)
Theorem transport_failure_is_passed_on (w : World) (user_id : Z)
    (r : PluginAPIKey) (token meth path : string) (json_data : option Json)
    (query : option (gmap string Json)) (e : Exc) :
  plugin_api_keys w !! user_id = Some r ->
  is_active r = true ->
  decrypt_api_key w (api_key r) = Ok token ->
  let req := outgoing w token meth path json_data query in
  upstream w req = Raise e ->
  fst (_proxy_request user_id meth path json_data query w) = Raise e
  /\ log (snd (_proxy_request user_id meth path json_data query w))
     = log w ++ [EvLookup user_id; EvDecrypt (api_key r); EvClientOpen;
                 EvRequest req; EvClientClose].
Proof.
  intros Hrow Hact Hdec req Hup.
  rewrite (proxy_request_sent w user_id r token meth path json_data query
             Hrow Hact Hdec).
  fold req. rewrite Hup. split; reflexivity.
Qed.

(** X2 in the small world, whose plugin API cannot be reached. *)
Lemma transport_failure_is_passed_on_witness :
  let w := demo_world unreachable unreachable_stream in
  fst (delete_account 1 "acc-1" w)
  = Raise (TransportError "connection refused")
  /\ clients (log (snd (delete_account 1 "acc-1" w))) = 0.
Proof.
  intros w.
  destruct (transport_failure_is_passed_on w 1
              {| api_key := "k1-sealed"; is_active := true |}
              "plain:k1-sealed" "DELETE" ("/api/kiro/accounts/" +:+ "acc-1")
              None None (TransportError "connection refused")
              eq_refl eq_refl eq_refl eq_refl)
    as (Hres & Hlog).
  unfold delete_account. rewrite Hres, Hlog. split; reflexivity.
Defined.

(** X3.  An answer with a success status whose body is not a JSON text makes
    [_proxy_request] raise the decoding error of [response.json()]: the
    status alone does not make the call succeed.  The request was sent
    once and the client is closed. *)
Theorem undecodable_body_is_an_error (w : World) (user_id : Z)
    (r : PluginAPIKey) (token meth path : string) (json_data : option Json)
    (query : option (gmap string Json)) (response : Response) :
  plugin_api_keys w !! user_id = Some r ->
  is_active r = true ->
  decrypt_api_key w (api_key r) = Ok token ->
  let req := outgoing w token meth path json_data query in
  upstream w req = Ok response ->
  is_success (status_code response) = true ->
  json_doc response = None ->
  fst (_proxy_request user_id meth path json_data query w) = Raise JSONDecodeError
  /\ outbound_calls (log (snd (_proxy_request user_id meth path json_data query w)))
     = outbound_calls (log w) ++ [req]
  /\ clients (log (snd (_proxy_request user_id meth path json_data query w)))
     = clients (log w).
Proof.
  intros Hrow Hact Hdec req Hup Hst Hdoc.
  rewrite (proxy_request_sent w user_id r token meth path json_data query
             Hrow Hact Hdec).
  fold req. rewrite Hup. cbn [relayed fst snd log with_log].
  rewrite Hst, Hdoc, outbound_calls_app, clients_app.
  repeat apply conj; [reflexivity|reflexivity|cbn; lia].
Qed.

(** X3 in the small world: a 200 with an empty body. *)
Lemma undecodable_body_is_an_error_witness :
  let w := demo_world (answering 200 [] None) unreachable_stream in
  fst (get_accounts 1 w) = Raise JSONDecodeError.
Proof.
  intros w.
  apply (undecodable_body_is_an_error w 1
           {| api_key := "k1-sealed"; is_active := true |}
           "plain:k1-sealed" "GET" "/api/kiro/accounts" None None
           {| status_code := 200; content := []; json_doc := None |}
           eq_refl eq_refl eq_refl eq_refl eq_refl eq_refl).
Defined.

(** X4.  However a single-response call ends (no key, a key that does not
    decrypt, a transport failure, an error status, a body that is no JSON,
    success), the client it may have opened is closed when it ends, and it
    never enters a streamed response.  This holds for [_proxy_request] and
    so for every method of the catalogue. *)
Theorem single_response_call_leaves_nothing_open (w : World) (user_id : Z) :
  (forall meth path json_data query,
      clients (log (snd (_proxy_request user_id meth path json_data query w)))
      = clients (log w)
      /\ held (log (snd (_proxy_request user_id meth path json_data query w)))
         = held (log w))
  /\ (forall c,
        clients (log (snd (invoke c user_id w))) = clients (log w)
        /\ held (log (snd (invoke c user_id w))) = held (log w)).
Proof.
  assert (Hproxy : forall meth path json_data query,
      clients (log (snd (_proxy_request user_id meth path json_data query w)))
      = clients (log w)
      /\ held (log (snd (_proxy_request user_id meth path json_data query w)))
         = held (log w)).
  { intros meth path json_data query.
    destruct (proxy_request_log w user_id meth path json_data query)
      as [(_ & ->)|[(r & e & _ & _ & _ & ->)|(r & token & _ & _ & _ & ->)]];
      cbn [snd log with_log]; rewrite clients_app, held_app; cbn; lia. }
  split; [exact Hproxy|].
  intros c. rewrite invoke_shape.
  destruct (shape c) as [[[meth path] json_data] query]. apply Hproxy.
Qed.

(** X5.  A single-response call sends at most one request, and a request
    it sends is built from the caller's own row: its only header is
    [Authorization: Bearer] followed by the key decrypted from the row of
    [user_id], its address is [base_url] followed by the path, its verb, body
    and query are the ones asked for, and its timeout is 300 seconds. *)
Theorem request_is_built_from_the_callers_key (w : World) (user_id : Z)
    (meth path : string) (json_data : option Json)
    (query : option (gmap string Json)) :
  exists sent,
    outbound_calls (log (snd (_proxy_request user_id meth path json_data query w)))
    = outbound_calls (log w) ++ sent
    /\ (length sent <= 1)%nat
    /\ forall req, req ∈ sent ->
         exists r token,
           plugin_api_keys w !! user_id = Some r
           /\ is_active r = true
           /\ decrypt_api_key w (api_key r) = Ok token
           /\ headers req = {[ "Authorization"%string := ("Bearer " +:+ token)%string ]}
           /\ url req = (base_url (self w) +:+ path)%string
           /\ method req = meth
           /\ json req = json_data
           /\ params req = query
           /\ timeout req = 300.
Proof.
  destruct (proxy_request_log w user_id meth path json_data query)
    as [(_ & ->)|[(r & e & _ & _ & _ & ->)|(r & token & Hrow & Hact & Hdec & ->)]];
    cbn [snd log with_log]; rewrite outbound_calls_app.
  - exists []. repeat apply conj; [reflexivity|cbn; lia|].
    intros req Hin. inversion Hin.
  - exists []. repeat apply conj; [reflexivity|cbn; lia|].
    intros req Hin. inversion Hin.
  - exists [outgoing w token meth path json_data query].
    repeat apply conj; [reflexivity|cbn; lia|].
    intros req Hin. apply list_elem_of_singleton in Hin. subst req.
    exists r, token. repeat apply conj; try assumption; reflexivity.
Qed.

(** X5 in the small world: what user 1 sends carries the key of user 1. *)
Lemma request_is_built_from_the_callers_key_witness :
  let w := demo_world (answering 200 [] (Some JNull)) unreachable_stream in
  exists sent,
    outbound_calls (log (snd (_proxy_request 1 "GET" "/v1/kiro/models" None None w)))
    = sent
    /\ forall req, req ∈ sent ->
         headers req
         = {[ "Authorization"%string := "Bearer plain:k1-sealed"%string ]}.
Proof.
  intros w.
  destruct (request_is_built_from_the_callers_key w 1 "GET" "/v1/kiro/models"
              None None)
    as (sent & Hsent & _ & Hreq).
  exists sent. split; [exact Hsent|].
  intros req Hin.
  destruct (Hreq req Hin) as (r & token & Hrow & _ & Hdec & Hheaders & _).
  vm_compute in Hrow. injection Hrow as <-.
  cbn in Hdec. injection Hdec as <-. exact Hheaders.
Defined.

(** X6.  A single-response call returns a document only when everything
    went well: the caller has an active row, its key decrypts, the plugin
    API answered the request with a success status, and the document is the
    one of that answer.  No result is made up on any other path. *)
Theorem a_document_comes_only_from_a_successful_answer (w : World)
    (user_id : Z) (meth path : string) (json_data : option Json)
    (query : option (gmap string Json)) (doc : Json) :
  fst (_proxy_request user_id meth path json_data query w) = Ok doc ->
  exists r token response,
    plugin_api_keys w !! user_id = Some r
    /\ is_active r = true
    /\ decrypt_api_key w (api_key r) = Ok token
    /\ upstream w (outgoing w token meth path json_data query) = Ok response
    /\ is_success (status_code response) = true
    /\ json_doc response = Some doc.
Proof.
  destruct (proxy_request_log w user_id meth path json_data query)
    as [(_ & ->)|[(r & e & _ & _ & _ & ->)|(r & token & Hrow & Hact & Hdec & ->)]];
    cbn [fst]; try discriminate.
  unfold relayed.
  destruct (upstream w (outgoing w token meth path json_data query))
    as [response|e] eqn:Hup; [|discriminate].
  destruct (is_success (status_code response)) eqn:Hst; [|discriminate].
  destruct (json_doc response) as [doc'|] eqn:Hdoc; [|discriminate].
  intros [= <-]. exists r, token, response.
  repeat apply conj; assumption.
Qed.

(** X6 in the small world: the accounts of user 1 were listed, so the
    plugin API answered with a success status. *)
Lemma a_document_comes_only_from_a_successful_answer_witness :
  let w := demo_world (answering 201 [] (Some (JList []))) unreachable_stream in
  fst (get_accounts 1 w) = Ok (JList [])
  /\ exists r token response,
       plugin_api_keys w !! 1 = Some r
       /\ is_active r = true
       /\ decrypt_api_key w (api_key r) = Ok token
       /\ upstream w (outgoing w token "GET" "/api/kiro/accounts" None None)
          = Ok response
       /\ is_success (status_code response) = true
       /\ json_doc response = Some (JList []).
Proof.
  intros w. split; [reflexivity|].
  apply (a_document_comes_only_from_a_successful_answer w 1 "GET"
           "/api/kiro/accounts" None None (JList []) eq_refl).
Defined.

(** X7.  A call looks at the caller's row only.  If the key table changes
    in the rows of other users, every method of the catalogue returns or
    raises the same thing and logs the same events. *)
Theorem other_users_rows_do_not_matter (w : World) (user_id : Z)
    (keys : gmap Z PluginAPIKey) (c : Call) :
  keys !! user_id = plugin_api_keys w !! user_id ->
  invoke c user_id (with_keys w keys)
  = (fst (invoke c user_id w), with_keys (snd (invoke c user_id w)) keys).
Proof.
  intros Hsame. rewrite !invoke_shape.
  destruct (shape c) as [[[meth path] json_data] query].
  destruct (proxy_request_log w user_id meth path json_data query)
    as [(Hno & ->)|[(r & e & Hrow & Hact & Hdec & ->)
                   |(r & token & Hrow & Hact & Hdec & ->)]].
  - rewrite proxy_request_unconfigured; [reflexivity|].
    unfold no_active_key in *. cbn [plugin_api_keys with_keys].
    rewrite Hsame. exact Hno.
  - rewrite (proxy_request_decrypt_failed (with_keys w keys) user_id r meth
               path json_data query e); [reflexivity| |exact Hact|exact Hdec].
    cbn [plugin_api_keys with_keys]. rewrite Hsame. exact Hrow.
  - rewrite (proxy_request_sent (with_keys w keys) user_id r token meth
               path json_data query); [reflexivity| |exact Hact|exact Hdec].
    cbn [plugin_api_keys with_keys]. rewrite Hsame. exact Hrow.
Qed.

(** X7 in the small world: the row of user 2 is removed, user 1 lists the
    accounts as before. *)
Lemma other_users_rows_do_not_matter_witness :
  let w := demo_world (answering 200 [] (Some (JList []))) unreachable_stream in
  delete 2 demo_keys !! 1 = demo_keys !! 1
  /\ fst (invoke GetAccounts 1 (with_keys w (delete 2 demo_keys)))
     = fst (invoke GetAccounts 1 w).
Proof.
  intros w.
  assert (Hsame : delete 2 demo_keys !! 1 = plugin_api_keys w !! 1)
    by (vm_compute; reflexivity).
  split; [exact Hsame|].
  rewrite (other_users_rows_do_not_matter w 1 (delete 2 demo_keys) GetAccounts
             Hsame).
  reflexivity.
Defined.

(** ** Every way through the generators *)

Lemma reads_app (l l' : list Event) : reads (l ++ l') = (reads l + reads l')%nat.
Proof. unfold reads. rewrite omap_app, length_app. reflexivity. Qed.

(** X8.  When the body of a streaming chat completion breaks in the middle,
    the consumer has received every chunk that arrived before, in order,
    and then gets the exception of the transport, not an end of sequence;
    the response and the client are closed by then. *)
Theorem midstream_failure_ends_the_sequence (w : World) (user_id : Z)
    (r : PluginAPIKey) (token : string) (request_data : Json)
    (response : StreamResponse) (e : Exc) :
  plugin_api_keys w !! user_id = Some r ->
  is_active r = true ->
  decrypt_api_key w (api_key r) = Ok token ->
  let req := outgoing w token "POST" "/v1/kiro/chat/completions"
               (Some request_data) None in
  upstream_stream w req = Ok response ->
  is_success (stream_status response) = true ->
  stream_failure response = Some e ->
  let chunks := stream_chunks response in
  let w_end := with_log w (log w ++ opening user_id r req
                                 ++ replicate (S (length chunks)) EvStreamRead
                                 ++ [EvStreamClose; EvClientClose]) in
  (forall extra,
     consume chat_anext (S (length chunks) + extra)
       (chat_completions_stream user_id request_data) w
     = (chunks, Failed e, ChatClosed, w_end))
  /\ held (log w_end) = held (log w)
  /\ clients (log w_end) = clients (log w).
Proof.
  intros Hrow Hact Hdec req Hup Hst Hfail chunks w_end. repeat apply conj.
  - intros extra. cbn [Nat.add]. rewrite consume_chat_created.
    rewrite (consume_entered w user_id r token _ _ _ response _
               Hrow Hact Hdec Hup Hst).
    fold req. fold chunks. rewrite Hfail.
    change (S (length chunks + extra)) with (S (length chunks) + extra)%nat.
    rewrite consume_to_the_end. subst w_end. tidy_log. reflexivity.
  - subst w_end. cbn [log with_log]. rewrite !held_app.
    assert (Hreads : forall n, held (replicate n EvStreamRead) = 0).
    { induction n as [|n IH]; [reflexivity|exact IH]. }
    rewrite Hreads. cbn. lia.
  - subst w_end. cbn [log with_log]. rewrite !clients_app.
    assert (Hreads : forall n, clients (replicate n EvStreamRead) = 0).
    { induction n as [|n IH]; [reflexivity|exact IH]. }
    rewrite Hreads. cbn. lia.
Qed.

(** X8 in the small world: one chunk, then the connection is reset. *)
Lemma midstream_failure_ends_the_sequence_witness :
  let w := demo_world unreachable broken_after_a in
  fst (fst (consume chat_anext 5 (chat_completions_stream 1 JNull) w))
  = ([[Byte.x61]], Failed (TransportError "connection reset")).
Proof.
  intros w.
  destruct (midstream_failure_ends_the_sequence w 1
              {| api_key := "k1-sealed"; is_active := true |}
              "plain:k1-sealed" JNull
              {| stream_status := 200; stream_chunks := [[Byte.x61]];
                 stream_failure := Some (TransportError "connection reset") |}
              (TransportError "connection reset")
              eq_refl eq_refl eq_refl eq_refl eq_refl eq_refl)
    as (Hall & _).
  rewrite (Hall 3%nat
           : consume chat_anext 5 (chat_completions_stream 1 JNull) w = _).
  reflexivity.
Defined.

(** X9.  Whatever the number of times the consumer of a streaming chat
    completion asks, and however the body ends, what it has received is the
    first chunks of the body, as many as it asked for or all of them: no
    chunk is dropped, repeated, reordered or made up. *)
Theorem consumer_receives_a_prefix_of_the_body (w : World) (user_id : Z)
    (r : PluginAPIKey) (token : string) (request_data : Json)
    (response : StreamResponse) (pulls : nat) :
  plugin_api_keys w !! user_id = Some r ->
  is_active r = true ->
  decrypt_api_key w (api_key r) = Ok token ->
  let req := outgoing w token "POST" "/v1/kiro/chat/completions"
               (Some request_data) None in
  upstream_stream w req = Ok response ->
  is_success (stream_status response) = true ->
  fst (fst (fst (consume chat_anext pulls
                   (chat_completions_stream user_id request_data) w)))
  = take pulls (stream_chunks response).
Proof.
  intros Hrow Hact Hdec req Hup Hst.
  destruct pulls as [|pulls]; [reflexivity|].
  rewrite consume_chat_created.
  rewrite (consume_entered w user_id r token _ _ _ response _
             Hrow Hact Hdec Hup Hst).
  fold req.
  destruct (decide (S pulls <= length (stream_chunks response))%nat) as [Hle|Hgt].
  - rewrite consume_some by exact Hle. reflexivity.
  - replace (S pulls)
      with (S (length (stream_chunks response))
            + (pulls - length (stream_chunks response)))%nat by lia.
    rewrite consume_to_the_end. cbn [fst]. rewrite take_ge by lia. reflexivity.
Qed.

(** X9 in the small world: two pulls on a body of three chunks that would
    break after them. *)
Lemma consumer_receives_a_prefix_of_the_body_witness :
  let w := demo_world unreachable
             (streaming 200 abc (Some (TransportError "connection reset"))) in
  fst (fst (fst (consume chat_anext 2 (chat_completions_stream 1 JNull) w)))
  = [[Byte.x61]; [Byte.x62]].
Proof.
  intros w.
  apply (consumer_receives_a_prefix_of_the_body w 1
           {| api_key := "k1-sealed"; is_active := true |}
           "plain:k1-sealed" JNull
           {| stream_status := 200; stream_chunks := abc;
              stream_failure := Some (TransportError "connection reset") |}
           2 eq_refl eq_refl eq_refl eq_refl eq_refl).
Defined.

(** X10.  When the streaming request cannot be sent (the transport fails
    before there is a response), the first [__anext__] raises that
    exception: the consumer gets no chunk, no response was entered, and the
    client that was opened is closed. *)
Theorem stream_connect_failure_is_passed_on (w : World) (user_id : Z)
    (r : PluginAPIKey) (token : string) (request_data : Json) (e : Exc)
    (pulls : nat) :
  plugin_api_keys w !! user_id = Some r ->
  is_active r = true ->
  decrypt_api_key w (api_key r) = Ok token ->
  let req := outgoing w token "POST" "/v1/kiro/chat/completions"
               (Some request_data) None in
  upstream_stream w req = Raise e ->
  let w' := with_log w (log w ++ [EvLookup user_id; EvDecrypt (api_key r);
                                  EvClientOpen; EvStreamRequest req;
                                  EvClientClose]) in
  consume chat_anext (S pulls) (chat_completions_stream user_id request_data) w
  = ([], Failed e, ChatClosed, w')
  /\ held (log w') = held (log w)
  /\ clients (log w') = clients (log w).
Proof.
  intros Hrow Hact Hdec req Hup w'. repeat apply conj.
  - rewrite consume_chat_created, consume_step.
    rewrite (anext_connect_failed w user_id r token _ _ _ Hrow Hact Hdec e Hup).
    reflexivity.
  - subst w'. cbn [log with_log]. rewrite held_app. cbn. lia.
  - subst w'. cbn [log with_log]. rewrite clients_app. cbn. lia.
Qed.

(** X10 in the small world, whose plugin API cannot be reached. *)
Lemma stream_connect_failure_is_passed_on_witness :
  let w := demo_world unreachable unreachable_stream in
  fst (fst (consume chat_anext 3 (chat_completions_stream 1 JNull) w))
  = ([], Failed (TransportError "connection refused")).
Proof.
  intros w.
  destruct (stream_connect_failure_is_passed_on w 1
              {| api_key := "k1-sealed"; is_active := true |}
              "plain:k1-sealed" JNull (TransportError "connection refused") 2
              eq_refl eq_refl eq_refl eq_refl)
    as (Hrun & _).
  rewrite Hrun. reflexivity.
Defined.

(** The two ways a parked frame goes on: it yields the next chunk and parks
    again, or the body is over and the frame leaves both [async with]
    blocks. *)
Lemma anext_suspended_cases (rest : list bytes) (failure : option Exc)
    (w : World) :
  (exists chunk rest',
      rest = chunk :: rest'
      /\ anext (GenSuspended rest failure) w
         = (Yield chunk, GenSuspended rest' failure,
            with_log w (log w ++ [EvStreamRead])))
  \/ (rest = []
      /\ anext (GenSuspended rest failure) w
         = (match failure with
            | None => StopAsyncIteration
            | Some e => Raised e
            end, GenClosed,
            with_log w (log w ++ [EvStreamRead; EvStreamClose; EvClientClose]))).
Proof.
  destruct rest as [|chunk rest].
  - right. split; [reflexivity|].
    destruct failure as [e|]; [apply anext_broken|apply anext_end].
  - left. exists chunk, rest. split; [reflexivity|apply anext_chunk].
Qed.

(** The five ways the first [__anext__] of a streaming call can go. *)
Lemma first_anext_log (w : World) (user_id : Z) (meth path : string)
    (json_data : option Json) :
  let gen := _proxy_stream_request user_id meth path json_data in
  (no_active_key w user_id
   /\ anext gen w
      = (Raised not_configured, GenClosed,
         with_log w (log w ++ [EvLookup user_id])))
  \/ (exists r e,
        plugin_api_keys w !! user_id = Some r /\ is_active r = true
        /\ decrypt_api_key w (api_key r) = Raise e
        /\ anext gen w
           = (Raised e, GenClosed,
              with_log w (log w ++ [EvLookup user_id; EvDecrypt (api_key r)])))
  \/ (exists r token e,
        plugin_api_keys w !! user_id = Some r /\ is_active r = true
        /\ decrypt_api_key w (api_key r) = Ok token
        /\ anext gen w
           = (Raised e, GenClosed,
              with_log w
                (log w ++ [EvLookup user_id; EvDecrypt (api_key r); EvClientOpen;
                           EvStreamRequest
                             (outgoing w token meth path json_data None);
                           EvClientClose])))
  \/ (exists r token e,
        plugin_api_keys w !! user_id = Some r /\ is_active r = true
        /\ decrypt_api_key w (api_key r) = Ok token
        /\ anext gen w
           = (Raised e, GenClosed,
              with_log w
                (log w ++ opening user_id r
                            (outgoing w token meth path json_data None)
                       ++ [EvStreamClose; EvClientClose])))
  \/ (exists r token rest failure,
        plugin_api_keys w !! user_id = Some r /\ is_active r = true
        /\ decrypt_api_key w (api_key r) = Ok token
        /\ anext gen w
           = anext (GenSuspended rest failure)
               (with_log w
                  (log w ++ opening user_id r
                              (outgoing w token meth path json_data None)))).
Proof.
  intros gen. subst gen.
  destruct (plugin_api_keys w !! user_id) as [r|] eqn:Hrow.
  2:{ left. assert (Hno : no_active_key w user_id)
        by (unfold no_active_key; rewrite Hrow; exact I).
      split; [exact Hno|]. apply anext_unconfigured, Hno. }
  destruct (is_active r) eqn:Hact.
  2:{ left. assert (Hno : no_active_key w user_id)
        by (unfold no_active_key; rewrite Hrow; exact Hact).
      split; [exact Hno|]. apply anext_unconfigured, Hno. }
  destruct (decrypt_api_key w (api_key r)) as [token|e] eqn:Hdec.
  2:{ right. left. exists r, e.
      repeat apply conj; try assumption; try reflexivity.
      apply (anext_decrypt_failed w user_id r meth path json_data e
               Hrow Hact Hdec). }
  destruct (upstream_stream w (outgoing w token meth path json_data None))
    as [response|e] eqn:Hup.
  2:{ right. right. left. exists r, token, e.
      repeat apply conj; try assumption; try reflexivity.
      apply (anext_connect_failed w user_id r token meth path json_data
               Hrow Hact Hdec e Hup). }
  destruct (is_success (stream_status response)) eqn:Hst.
  - right. right. right. right.
    exists r, token, (stream_chunks response), (stream_failure response).
    repeat apply conj; try assumption; try reflexivity.
    apply (anext_entered w user_id r token meth path json_data
             Hrow Hact Hdec response Hup Hst).
  - right. right. right. left.
    exists r, token, (HTTPStatusError (stream_status response) None).
    repeat apply conj; try assumption; try reflexivity.
    apply (anext_bad_status w user_id r token meth path json_data
             Hrow Hact Hdec response Hup Hst).
Qed.

(** What one [__anext__] can cost, whatever the state of the frame: it
    reads the body at most once, sends a request only if the frame had not
    started, and never leaves the frame as if it had not started. *)
Lemma anext_summary (g : AsyncGen) (w : World) :
  exists events,
    snd (anext g w) = with_log w (log w ++ events)
    /\ fresh (snd (fst (anext g w))) = 0%nat
    /\ (reads events <= 1)%nat
    /\ (length (outbound_calls events) <= fresh g)%nat.
Proof.
  assert (Hparked : forall rest failure w0 before,
    (reads before = 0)%nat ->
    exists events,
      snd (anext (GenSuspended rest failure) w0)
      = with_log w0 (log w0 ++ events)
      /\ fresh (snd (fst (anext (GenSuspended rest failure) w0))) = 0%nat
      /\ (reads (before ++ events) <= 1)%nat
      /\ outbound_calls events = []).
  { intros rest failure w0 before Hbefore.
    destruct (anext_suspended_cases rest failure w0)
      as [(chunk & rest' & _ & ->)|(_ & ->)];
      eexists; (split; [reflexivity|]); rewrite reads_app, Hbefore;
      repeat apply conj; try reflexivity; cbn; lia. }
  destruct g as [user_id meth path json_data|rest failure|].
  - change (GenCreated user_id meth path json_data)
      with (_proxy_stream_request user_id meth path json_data).
    destruct (first_anext_log w user_id meth path json_data)
      as [(_ & ->)|[(r & e & _ & _ & _ & ->)|[(r & token & e & _ & _ & _ & ->)
         |[(r & token & e & _ & _ & _ & ->)
          |(r & token & rest & failure & _ & _ & _ & ->)]]]].
    1-4: eexists; (split; [reflexivity|]);
      repeat apply conj; try reflexivity; cbn; lia.
    destruct (Hparked rest failure
                (with_log w (log w ++ opening user_id r
                               (outgoing w token meth path json_data None)))
                (opening user_id r (outgoing w token meth path json_data None))
                eq_refl)
      as (events & -> & Hfresh & Hreads & Hout).
    exists (opening user_id r (outgoing w token meth path json_data None)
            ++ events).
    repeat apply conj.
    + tidy_log. reflexivity.
    + exact Hfresh.
    + exact Hreads.
    + rewrite outbound_calls_app, Hout. cbn. lia.
  - destruct (Hparked rest failure w [] eq_refl)
      as (events & -> & Hfresh & Hreads & Hout).
    exists events. repeat apply conj;
      [reflexivity|exact Hfresh|exact Hreads|rewrite Hout; cbn; lia].
  - exists []. rewrite anext_closed, app_nil_r, with_log_same.
    repeat apply conj; try reflexivity; cbn; lia.
Qed.

Lemma first_anext_outbound (w : World) (user_id : Z) (r : PluginAPIKey)
    (token meth path : string) (json_data : option Json) :
  plugin_api_keys w !! user_id = Some r ->
  is_active r = true ->
  decrypt_api_key w (api_key r) = Ok token ->
  outbound_calls
    (log (snd (anext (_proxy_stream_request user_id meth path json_data) w)))
  = outbound_calls (log w) ++ [outgoing w token meth path json_data None].
Proof.
  intros Hrow Hact Hdec.
  destruct (upstream_stream w (outgoing w token meth path json_data None))
    as [response|e] eqn:Hup.
  2:{ rewrite (anext_connect_failed w user_id r token meth path json_data
                 Hrow Hact Hdec e Hup).
      cbn [snd log with_log]. rewrite outbound_calls_app. reflexivity. }
  destruct (is_success (stream_status response)) eqn:Hst.
  - rewrite (anext_entered w user_id r token meth path json_data
               Hrow Hact Hdec response Hup Hst).
    destruct (anext_suspended_cases (stream_chunks response)
                (stream_failure response)
                (with_log w (log w ++ opening user_id r
                               (outgoing w token meth path json_data None))))
      as [(chunk & rest' & _ & ->)|(_ & ->)];
      cbn [snd log with_log]; rewrite <- app_assoc, outbound_calls_app;
      reflexivity.
  - rewrite (anext_bad_status w user_id r token meth path json_data
               Hrow Hact Hdec response Hup Hst).
    cbn [snd log with_log]. rewrite outbound_calls_app. reflexivity.
Qed.

(** X11.  The streaming proxy sends what the single-response proxy sends
    when it is given no query: for the same user, verb, path and body the
    first [__anext__] makes the same outbound calls as [_proxy_request],
    in every world (none at all without a usable key).  So the two chat
    completions send the same request for the same body, whatever the answer
    is. *)
Theorem streaming_and_plain_calls_send_the_same_request (w : World)
    (user_id : Z) :
  (forall meth path json_data,
     outbound_calls
       (log (snd (anext (_proxy_stream_request user_id meth path json_data) w)))
     = outbound_calls
         (log (snd (_proxy_request user_id meth path json_data None w))))
  /\ (forall request_data,
        outbound_calls
          (log (snd (chat_anext (chat_completions_stream user_id request_data) w)))
        = outbound_calls (log (snd (chat_completions user_id request_data w)))).
Proof.
  assert (Hboth : forall meth path json_data,
     outbound_calls
       (log (snd (anext (_proxy_stream_request user_id meth path json_data) w)))
     = outbound_calls
         (log (snd (_proxy_request user_id meth path json_data None w)))).
  { intros meth path json_data.
    destruct (proxy_request_log w user_id meth path json_data None)
      as [(Hno & ->)|[(r & e & Hrow & Hact & Hdec & ->)
                     |(r & token & Hrow & Hact & Hdec & ->)]].
    - rewrite (anext_unconfigured w user_id meth path json_data Hno).
      reflexivity.
    - rewrite (anext_decrypt_failed w user_id r meth path json_data e
                 Hrow Hact Hdec).
      cbn [snd log with_log]. rewrite !outbound_calls_app. reflexivity.
    - rewrite (first_anext_outbound w user_id r token meth path json_data
                 Hrow Hact Hdec).
      cbn [snd log with_log]. rewrite outbound_calls_app. reflexivity. }
  split; [exact Hboth|].
  intros request_data. cbn [chat_anext chat_completions_stream].
  rewrite forward_world. unfold chat_completions. apply Hboth.
Qed.

(** What [aclose] can cost: it reads nothing, sends nothing, and finishes
    the frame. *)
Lemma aclose_summary (g : AsyncGen) (w : World) :
  exists events,
    aclose g w = (GenClosed, with_log w (log w ++ events))
    /\ reads events = 0%nat
    /\ outbound_calls events = [].
Proof.
  destruct g; cbn [aclose].
  - exists []. rewrite app_nil_r, with_log_same. repeat apply conj; reflexivity.
  - exists [EvStreamClose; EvClientClose].
    unfold leave_stream_and_client, bind, emit. tidy_log.
    repeat apply conj; reflexivity.
  - exists []. rewrite app_nil_r, with_log_same. repeat apply conj; reflexivity.
Qed.

(** The cost of any sequence of operations of a consumer. *)
Lemma run_budget (ops : list Op) (g : AsyncGen) (w : World) :
  (reads (log (snd (run ops g w))) <= reads (log w) + asks ops)%nat
  /\ (length (outbound_calls (log (snd (run ops g w))))
      + fresh (fst (run ops g w))
      <= length (outbound_calls (log w)) + fresh g)%nat.
Proof.
  revert g w. induction ops as [|op ops IH]; intros g w.
  - cbn [run fst snd asks omap length]. lia.
  - cbn [run].
    specialize (IH (fst (apply_op op g w)) (snd (apply_op op g w))).
    destruct op; cbn [apply_op fst snd] in *.
    + destruct (anext_summary g w) as (events & Hw & Hfresh & Hreads & Hout).
      rewrite Hw in IH. rewrite Hw. cbn [log with_log] in IH.
      rewrite reads_app, outbound_calls_app, length_app, Hfresh in IH.
      change (asks (Next :: ops)) with (S (asks ops)). lia.
    + destruct (aclose_summary g w) as (events & Hw & Hreads & Hout).
      rewrite Hw in IH. rewrite Hw. cbn [fst snd log with_log fresh] in IH.
      cbn [fst snd].
      rewrite reads_app, outbound_calls_app, length_app, Hreads, Hout in IH.
      change (asks (Close :: ops)) with (asks ops). cbn [length] in IH. lia.
Qed.

(** X12.  The streaming proxy never reads ahead of its consumer: after any
    sequence of [__anext__] and [aclose] on its generator, the body has been
    read at most as many times as the consumer asked. *)
Theorem stream_is_read_only_on_demand (w : World) (user_id : Z)
    (meth path : string) (json_data : option Json) (ops : list Op) :
  (reads (log (snd (run ops (_proxy_stream_request user_id meth path json_data) w)))
   <= reads (log w) + asks ops)%nat.
Proof. apply run_budget. Qed.

(** X13.  One streaming call is one request at most: whatever the consumer
    does with the generator and however the stream goes (bad status, broken
    body, abandoned, exhausted), no second request is sent, so there is no
    retry and no resuming of a broken stream. *)
Theorem stream_sends_at_most_one_request (w : World) (user_id : Z)
    (meth path : string) (json_data : option Json) (ops : list Op) :
  (length (outbound_calls
             (log (snd (run ops
                          (_proxy_stream_request user_id meth path json_data) w))))
   <= length (outbound_calls (log w)) + 1)%nat.
Proof.
  pose proof (run_budget ops
                (_proxy_stream_request user_id meth path json_data) w)
    as (_ & Hout).
  cbn [fresh _proxy_stream_request] in Hout. lia.
Qed.

Lemma run_closed (ops : list Op) (w : World) : run ops GenClosed w = (GenClosed, w).
Proof.
  induction ops as [|op ops IH]; [reflexivity|].
  cbn [run]. destruct op; cbn [apply_op aclose fst snd];
    rewrite ?anext_closed; exact IH.
Qed.

(** X14.  A finished generator is inert, and so is one that is abandoned
    before its first [__anext__]: whatever the consumer does afterwards
    changes nothing, and for the abandoned one not even the key was looked
    up. *)
Theorem finished_or_unstarted_generator_does_nothing (w : World) (user_id : Z)
    (meth path : string) (json_data : option Json) (ops : list Op) :
  run ops GenClosed w = (GenClosed, w)
  /\ run (Close :: ops) (_proxy_stream_request user_id meth path json_data) w
     = (GenClosed, w)
  /\ forall before,
       fst (run (before ++ [Close] ++ ops)
              (_proxy_stream_request user_id meth path json_data) w)
       = GenClosed
       /\ snd (run (before ++ [Close] ++ ops)
                 (_proxy_stream_request user_id meth path json_data) w)
          = snd (run (before ++ [Close])
                   (_proxy_stream_request user_id meth path json_data) w).
Proof.
  assert (Happ : forall ops1 ops2 g w0,
            run (ops1 ++ ops2) g w0
            = run ops2 (fst (run ops1 g w0)) (snd (run ops1 g w0))).
  { induction ops1 as [|op ops1 IH]; intros ops2 g w0; [reflexivity|].
    cbn [app run]. apply IH. }
  repeat apply conj.
  - apply run_closed.
  - cbn [run apply_op aclose _proxy_stream_request fst snd]. apply run_closed.
  - intros before.
    rewrite (Happ before ([Close] ++ ops)), (Happ before [Close]).
    cbn [app run apply_op fst snd]. rewrite aclose_finishes, run_closed.
    split; reflexivity.
Qed.

(** ** The catalogue *)

(** X15.  The account identifier is put into the path as it is, without
    quoting: an identifier that ends in [/balance] turns [get_account] into
    the call [get_account_balance] makes for the identifier before it. *)
Theorem account_id_is_not_quoted (user_id : Z) (account_id : string) :
  get_account user_id (account_id +:+ "/balance")
  = get_account_balance user_id account_id.
Proof. reflexivity. Qed.

(** X16.  The query of the consumption list has no key besides [limit],
    [offset], [start_date] and [end_date], and the query of the consumption
    statistics none besides [start_date] and [end_date], whatever the
    arguments. *)
Theorem query_has_no_other_key (limit offset : option Z)
    (start_date end_date : option string) :
  dom (consumption_params limit offset start_date end_date)
    ⊆ ({[ "limit"; "offset"; "start_date"; "end_date" ]} : gset string)%string
  /\ dom (stats_params start_date end_date)
       ⊆ ({[ "start_date"; "end_date" ]} : gset string)%string.
Proof.
  split; intros k Hk; apply elem_of_dom in Hk; destruct Hk as [v Hv].
  - rewrite consumption_params_lookup in Hv.
    repeat case_decide; subst; try discriminate; set_solver.
  - rewrite stats_params_lookup in Hv.
    repeat case_decide; subst; try discriminate; set_solver.
Qed.

(** X17.  In the catalogue a request carries a body exactly when its verb
    is [POST] or [PUT] (never with [GET] or [DELETE]), and it carries a query
    exactly for the consumption list and the consumption statistics. *)
Theorem body_goes_with_post_and_put (w : World) (user_id : Z)
    (r : PluginAPIKey) (token : string) (c : Call) :
  plugin_api_keys w !! user_id = Some r ->
  is_active r = true ->
  decrypt_api_key w (api_key r) = Ok token ->
  exists req,
    outbound_calls (log (snd (invoke c user_id w)))
    = outbound_calls (log w) ++ [req]
    /\ (is_Some (json req)
        <-> method req = "POST"%string \/ method req = "PUT"%string)
    /\ (json req = None
        <-> method req = "GET"%string \/ method req = "DELETE"%string)
    /\ (is_Some (params req)
        <-> match c with
            | GetAccountConsumption _ _ _ _ _ => True
            | GetUserConsumptionStats _ _ => True
            | _ => False
            end).
Proof.
  intros Hrow Hact Hdec. rewrite invoke_shape.
  destruct (shape c) as [[[meth path] json_data] query] eqn:Hshape.
  exists (outgoing w token meth path json_data query).
  rewrite (proxy_request_sent w user_id r token meth path json_data query
             Hrow Hact Hdec).
  cbn [snd log with_log outgoing json method params].
  rewrite outbound_calls_app. split; [reflexivity|].
  destruct c; cbn [shape] in Hshape; injection Hshape as <- <- <- <-;
    repeat apply conj;
    try (intros [? [=]]); try (intros [[=]|[=]]); try (intros [=]);
    try (intros []); try tauto; try (left; reflexivity);
    try (right; reflexivity); try (eexists; reflexivity); try reflexivity.
Qed.

(** X17 in the small world: deleting an account sends one request, a
    [DELETE], and so without a body. *)
Lemma body_goes_with_post_and_put_witness :
  let w := demo_world unreachable unreachable_stream in
  exists req,
    outbound_calls (log (snd (invoke (DeleteAccount "acc-1") 1 w))) = [req]
    /\ method req = "DELETE"%string
    /\ json req = None.
Proof.
  intros w.
  destruct (body_goes_with_post_and_put w 1
              {| api_key := "k1-sealed"; is_active := true |}
              "plain:k1-sealed" (DeleteAccount "acc-1")
              eq_refl eq_refl eq_refl)
    as (req & Hsent & _ & Hnone & _).
  exists req. split; [exact Hsent|].
  assert (Hverb : method req = "DELETE"%string).
  { vm_compute in Hsent. injection Hsent as <-. reflexivity. }
  split; [exact Hverb|]. apply Hnone. right. exact Hverb.
Defined.
